(** * Order and payment lifecycle of the e-commerce backend

    A shallow embedding of the order routes of the Express server
    ([POST /placeorder], [POST /create-cashfree-order],
    [POST /verify-payment], [PUT /admin/orders/:id]) together with the two
    middlewares they run behind, and the properties of the order/payment
    lifecycle proved about them; then the other routes of the same server
    (the order listings, the catalogue, [/signup] and [/login]) and what
    holds of them.

    Conventions of the embedding:
    - a JavaScript Number is an IEEE 754 binary64 value: Rocq's primitive
      [float], whose [+] and [*] are the JavaScript ones;
    - a JavaScript string is a [string] holding its UTF-8 text; [.length]
      is [js_length], the number of UTF-16 code units of that text (one
      per character of the basic plane, two per character beyond it);
    - a request body is read at the types the Order schema gives its
      fields: line items with Number [quantity] and [price], string fields
      that may be absent, an [orderId] that is a string; whatever else the
      client sent is kept aside in [rest];
    - the Order collection is a finite map from the canonical text of an
      [ObjectId] to the stored document;
    - an [async] handler is a computation over the [World] (database,
      calls issued to the payment gateway, console) that either completes
      normally or throws; [try { ... } catch (err) { ... }] is [try_catch];
    - everything the server does not decide itself (token verification, the
      payment gateway's answers, the fresh [ObjectId] and the clock used for
      a new document, the [FRONTEND_URL] variable) is read from an [Env].

    The persistence layer (mongoose) is given the behaviour the routes rely
    on: [findById] and [findByIdAndUpdate] throw a [CastError] for an id
    that is not the text of an [ObjectId]; [findByIdAndUpdate] sets the
    given paths of the one matching document and quietly does nothing when
    there is none; [save] validates the document against the schema
    ([required], [enum], the Number casts and the [ObjectId] cast of each
    line item's [productId]) and inserts it under a fresh [_id]. *)

From Stdlib Require Import Floats ZArith List Bool Ascii String.
From stdpp Require Import gmap strings sorting.

Set Warnings "-register-all".

Import ListNotations.
Local Open Scope string_scope.

(** ** JavaScript values *)

(** JSON data as the server sees it after [express.json()] or in an axios
    response; [JUndefined] is the result of reading a missing property. *)
Inductive JVal : Type :=
| JUndefined
| JNull
| JBool (b : bool)
| JNum (n : float)
| JStr (s : string)
| JArr (xs : list JVal)
| JObj (fields : list (string * JVal)).

Fixpoint assoc_get {A : Type} (k : string) (fields : list (string * A)) : option A :=
  match fields with
  | [] => None
  | (k', v) :: rest => if String.eqb k k' then Some v else assoc_get k rest
  end.

(** [v.k] for a value that is neither [null] nor [undefined]. The keys the
    routes read ([payment_session_id], [order_id], [order_status]) are not
    built-in properties of strings, numbers, booleans or arrays, so reading
    them there yields [undefined]. *)
Definition get_prop (v : JVal) (k : string) : JVal :=
  match v with
  | JObj fields => match assoc_get k fields with Some x => x | None => JUndefined end
  | _ => JUndefined
  end.

Definition is_nullish (v : JVal) : bool :=
  match v with
  | JUndefined | JNull => true
  | _ => false
  end.

(** [v?.k] *)
Definition opt_chain (v : JVal) (k : string) : JVal :=
  if is_nullish v then JUndefined else get_prop v k.

(** ToBoolean *)
Definition truthy (v : JVal) : bool :=
  match v with
  | JUndefined | JNull => false
  | JBool b => b
  | JNum n => negb (PrimFloat.is_zero n || PrimFloat.is_nan n)
  | JStr s => negb (String.eqb s "")
  | JArr _ | JObj _ => true
  end.

(** [v === "s"] for a string literal [s] *)
Definition strict_eq_str (v : JVal) (s : string) : bool :=
  match v with
  | JStr t => String.eqb t s
  | _ => false
  end.

(** [a || b] *)
Definition js_or (a b : JVal) : JVal := if truthy a then a else b.

(** Truthiness of an optional string field: [undefined] and [""] are falsy. *)
Definition truthy_str (s : option string) : bool :=
  match s with
  | Some t => negb (String.eqb t "")
  | None => false
  end.

(** A string inside a template literal; a missing value prints as
    ["undefined"]. *)
Definition template_str (s : option string) : string :=
  match s with
  | Some t => t
  | None => "undefined"
  end.

(** ** String length *)

(** The UTF-16 code units a UTF-8 byte stands for: one for an ASCII byte
    and for the first byte of a two- or three-byte sequence (a character of
    the basic plane), two for the first byte of a four-byte sequence (a
    surrogate pair), none for a continuation byte. *)
Definition utf16_units (c : ascii) : nat :=
  let n := nat_of_ascii c in
  if (n <? 128)%nat then 1%nat
  else if (n <? 192)%nat then 0%nat
  else if (n <? 240)%nat then 1%nat
  else 2%nat.

(** [s.length] *)
Fixpoint js_length (s : string) : nat :=
  match s with
  | EmptyString => 0%nat
  | String c rest => (utf16_units c + js_length rest)%nat
  end.

(** ** ObjectId *)

Definition is_hex_digit (c : ascii) : bool :=
  let n := nat_of_ascii c in
  ((48 <=? n) && (n <=? 57) || (97 <=? n) && (n <=? 102) || (65 <=? n) && (n <=? 70))%nat.

Definition lower_hex (c : ascii) : ascii :=
  let n := nat_of_ascii c in
  if ((65 <=? n) && (n <=? 70))%nat then ascii_of_nat (n + 32) else c.

Fixpoint string_forallb (p : ascii -> bool) (s : string) : bool :=
  match s with
  | EmptyString => true
  | String c rest => p c && string_forallb p rest
  end.

Fixpoint string_map (f : ascii -> ascii) (s : string) : string :=
  match s with
  | EmptyString => EmptyString
  | String c rest => String (f c) (string_map f rest)
  end.

(** The driver's cast of a string to an [ObjectId]: 24 hexadecimal digits,
    kept in their canonical (lower-case) form; [None] is mongoose's
    [CastError]. An [ObjectId] is represented by that canonical text, which
    is also what [_id.toString()] returns. (Hexadecimal digits are ASCII, so
    counting the 24 in bytes or in code units is the same.) *)
Definition castObjectId (s : string) : option string :=
  if (String.length s =? 24)%nat && string_forallb is_hex_digit s
  then Some (string_map lower_hex s)
  else None.

(** ** Documents (the mongoose models) *)

Module Item.
Record t : Type := mk {
  productId : option string;
  name : option string;
  quantity : float;
  price : float;
  image : option string
}.
End Item.

Module Address.
Record t : Type := mk {
  name : option string;
  address : option string;
  city : option string;
  state : option string;
  zip : option string;
  phone : option string
}.

(** A nested path that was never set reads as an object without fields. *)
Definition empty : t := mk None None None None None None.
End Address.

Inductive PaymentMethod : Type := COD | ONLINE.
Inductive PaymentStatus : Type := PENDING | PAID.

#[global] Instance PaymentMethod_eq_dec : EqDecision PaymentMethod.
Proof. solve_decision. Defined.

#[global] Instance PaymentStatus_eq_dec : EqDecision PaymentStatus.
Proof. solve_decision. Defined.

Module Order.
Record t : Type := mk {
  _id : string;
  userEmail : string;
  items : list Item.t;
  totalAmount : float;
  shippingAddress : Address.t;
  paymentMethod : PaymentMethod;
  paymentStatus : PaymentStatus;
  status : string;
  createdAt : float
}.

Definition set_paymentStatus (v : PaymentStatus) (o : t) : t :=
  mk (_id o) (userEmail o) (items o) (totalAmount o) (shippingAddress o)
     (paymentMethod o) v (status o) (createdAt o).

Definition set_status (v : string) (o : t) : t :=
  mk (_id o) (userEmail o) (items o) (totalAmount o) (shippingAddress o)
     (paymentMethod o) (paymentStatus o) v (createdAt o).
End Order.

Module Product.
Record t : Type := mk {
  id : float;
  name : string;
  images : list string;
  category : string;
  new_price : float;
  old_price : float;
  date : float;
  available : bool
}.
End Product.

(** The collections the server owns. Only [orders] is touched by the order
    routes; [products] is carried along so that this can be stated. *)
Record Db : Type := mkDb {
  orders : gmap string Order.t;
  products : list Product.t
}.

Definition set_orders (m : gmap string Order.t) (d : Db) : Db :=
  mkDb m (products d).

(** ** The outside world: token payloads, the payment gateway, errors *)

(** The payload [/login] signs into a token and [jwt.verify] gives back. *)
Record User : Type := mkUser {
  username : string;
  email : string;
  role : string
}.

(** The body posted to the gateway's [/checkout/orders]. [order_amount] holds
    the number whose [toFixed(2)] rendering is sent; the rendering is a
    function of that number and is not expanded here. *)
Record Payload : Type := mkPayload {
  order_id : string;
  order_amount : float;
  order_currency : string;
  customer_id : string;
  customer_email : string;
  customer_phone : string;
  return_url : string
}.

(** A request issued through [pgAxios]. *)
Inductive GwCall : Type :=
| GwPost (url : string) (payload : Payload)
| GwGet (url : string).

Record AxiosResponse : Type := mkAxiosResponse {
  ax_status : nat;
  ax_data : JVal
}.

(** A thrown JavaScript error: its [name], its [message], and for an axios
    error the upstream [response] when one was received. The message texts of
    library errors are indicative only; nothing below depends on them. *)
Record JsError : Type := mkJsError {
  err_name : string;
  err_message : string;
  err_response : option AxiosResponse
}.

(** [err.response?.status] and [err.response?.data] *)
Definition err_response_status (e : JsError) : option nat :=
  ax_status <$> err_response e.

Definition err_response_data (e : JsError) : JVal :=
  match err_response e with
  | Some r => ax_data r
  | None => JUndefined
  end.

(** The promise an axios call returns: fulfilled with a response, or
    rejected with an error (a non-2xx answer, or no answer at all). *)
Inductive AxiosResult : Type :=
| Fulfilled (r : AxiosResponse)
| Rejected (e : JsError).

Record Env : Type := mkEnv {
  jwt_verify : string -> option User;
  pgAxios : GwCall -> AxiosResult;
  FRONTEND_URL : option string;
  new_ObjectId : string;
  Date_now : float
}.

(** What [console.error] is given after its label. *)
Inductive LogArg : Type :=
| LogStatus (s : option nat)
| LogJsonText (v : JVal)
| LogVal (v : JVal)
| LogMessage (m : string)
| LogErr (e : JsError).

(** ** HTTP responses *)

Inductive BodyVal : Type :=
| BBool (b : bool)
| BStr (s : string)
| BVal (v : JVal)
| BOrder (o : Order.t).

(** [res.status(code).json(body)]; [res.json(body)] answers with 200. *)
Record Response : Type := mkResponse {
  status_code : nat;
  json : list (string * BodyVal)
}.

Definition res_json (body : list (string * BodyVal)) : Response := mkResponse 200 body.

(** ** Handler computations *)

Record World : Type := mkWorld {
  db : Db;
  gateway_calls : list GwCall;
  console : list (string * LogArg)
}.

Inductive Completion (A : Type) : Type :=
| Normal (a : A)
| Thrown (e : JsError).
Arguments Normal {A} a.
Arguments Thrown {A} e.

Definition Eff (A : Type) : Type := World -> Completion A * World.

#[global] Instance Eff_ret : MRet Eff := fun A a w => (Normal a, w).

#[global] Instance Eff_bind : MBind Eff := fun A B k m w =>
  match m w with
  | (Normal a, w') => k a w'
  | (Thrown e, w') => (Thrown e, w')
  end.

Definition throw {A : Type} (e : JsError) : Eff A := fun w => (Thrown e, w).

(** [try { body } catch (err) { handler }] *)
Definition try_catch {A : Type} (body : Eff A) (handler : JsError -> Eff A) : Eff A :=
  fun w =>
    match body w with
    | (Normal a, w') => (Normal a, w')
    | (Thrown e, w') => handler e w'
    end.

Definition console_error (label : string) (arg : LogArg) : Eff unit :=
  fun w => (Normal tt, mkWorld (db w) (gateway_calls w) (console w ++ [(label, arg)])).

(** [await pgAxios.post(...)] / [await pgAxios.get(...)]: the call is
    recorded, and the gateway's answer is the environment's. *)
Definition await_pgAxios (env : Env) (c : GwCall) : Eff AxiosResponse :=
  fun w =>
    let w' := mkWorld (db w) (gateway_calls w ++ [c]) (console w) in
    match pgAxios env c with
    | Fulfilled r => (Normal r, w')
    | Rejected e => (Thrown e, w')
    end.

Definition get_orders : Eff (gmap string Order.t) :=
  fun w => (Normal (orders (db w)), w).

Definition put_orders (m : gmap string Order.t) : Eff unit :=
  fun w => (Normal tt, mkWorld (set_orders m (db w)) (gateway_calls w) (console w)).

(** ** The Order model's operations *)

Definition CastError (value : string) : JsError :=
  mkJsError "CastError" ("Cast to ObjectId failed for value " ++ value) None.

Definition ValidationError (path : string) : JsError :=
  mkJsError "ValidationError" ("order validation failed: " ++ path) None.

Definition DuplicateKeyError (id : string) : JsError :=
  mkJsError "MongoServerError" ("E11000 duplicate key error: _id " ++ id) None.

Definition TypeError (msg : string) : JsError :=
  mkJsError "TypeError" msg None.

(** [Order.findById(id)]: a [CastError] for text that is no [ObjectId],
    otherwise the stored document or [null]. *)
Definition Order_findById (id : string) : Eff (option Order.t) :=
  match castObjectId id with
  | None => throw (CastError id)
  | Some oid => m ← get_orders; mret (m !! oid)
  end.

(** An update document; a key that is absent (or [undefined]) leaves the
    stored path as it is. *)
Record OrderUpdate : Type := mkOrderUpdate {
  upd_paymentStatus : option PaymentStatus;
  upd_status : option string
}.

Definition apply_update (u : OrderUpdate) (o : Order.t) : Order.t :=
  let o1 := match upd_paymentStatus u with
            | Some ps => Order.set_paymentStatus ps o
            | None => o
            end in
  match upd_status u with
  | Some s => Order.set_status s o1
  | None => o1
  end.

(** [Order.findByIdAndUpdate(id, update)]: a [CastError] for text that is no
    [ObjectId]; otherwise the one document with that id is updated in place,
    and nothing happens (and nothing is thrown) when there is none. *)
Definition Order_findByIdAndUpdate (id : string) (u : OrderUpdate) : Eff unit :=
  match castObjectId id with
  | None => throw (CastError id)
  | Some oid => m ← get_orders; put_orders (alter (apply_update u) oid m)
  end.

(** What [new Order({...})] is given by [/placeorder]. *)
Record OrderInit : Type := mkOrderInit {
  init_userEmail : string;
  init_items : list Item.t;
  init_totalAmount : float;
  init_shippingAddress : option Address.t;
  init_paymentMethod : option string;
  init_paymentStatus : PaymentStatus
}.

(** The schema's [enum: ["COD", "ONLINE"]] *)
Definition parse_paymentMethod (s : string) : option PaymentMethod :=
  if String.eqb s "COD" then Some COD
  else if String.eqb s "ONLINE" then Some ONLINE
  else None.

(** A Number path refuses [NaN]. *)
Definition item_castable (it : Item.t) : bool :=
  negb (PrimFloat.is_nan (Item.quantity it)) && negb (PrimFloat.is_nan (Item.price it)).

(** The casts of one line item: its two Number paths, and [productId],
    which when present must be the text of an [ObjectId] and is stored in
    its canonical form. [None] is a failed cast. (The [_id] mongoose gives
    each line item of its own is not represented.) *)
Definition cast_item (it : Item.t) : option Item.t :=
  if negb (item_castable it) then None
  else match Item.productId it with
       | None => Some it
       | Some s =>
         match castObjectId s with
         | Some oid => Some (Item.mk (Some oid) (Item.name it) (Item.quantity it)
                                     (Item.price it) (Item.image it))
         | None => None
         end
       end.

Fixpoint cast_items (items : list Item.t) : option (list Item.t) :=
  match items with
  | [] => Some []
  | it :: rest =>
    match cast_item it, cast_items rest with
    | Some it', Some rest' => Some (it' :: rest')
    | _, _ => None
    end
  end.

(** [new Order(init)] followed by the validation [save()] runs: the schema's
    [required] paths ([userEmail], [totalAmount], [paymentMethod]), its
    Number and [ObjectId] casts and the [paymentMethod] enum; the defaults
    ([status], [createdAt]) and the fresh [_id] are filled in. *)
Definition new_Order (env : Env) (init : OrderInit) : JsError + Order.t :=
  if String.eqb (init_userEmail init) "" then inl (ValidationError "userEmail")
  else match cast_items (init_items init) with
       | None => inl (ValidationError "items")
       | Some items =>
         if PrimFloat.is_nan (init_totalAmount init)
         then inl (ValidationError "totalAmount")
         else match init_paymentMethod init with
              | None => inl (ValidationError "paymentMethod")
              | Some pm =>
                match parse_paymentMethod pm with
                | None => inl (ValidationError "paymentMethod")
                | Some method =>
                  inr (Order.mk (new_ObjectId env)
                                (init_userEmail init)
                                items
                                (init_totalAmount init)
                                (default Address.empty (init_shippingAddress init))
                                method
                                (init_paymentStatus init)
                                "Processing"
                                (Date_now env))
                end
              end
       end.

(** [const newOrder = new Order(init); await newOrder.save()]: throws when
    validation fails or the [_id] is taken, inserts the document otherwise. *)
Definition Order_save (env : Env) (init : OrderInit) : Eff Order.t :=
  match new_Order env init with
  | inl e => throw e
  | inr doc =>
    m ← get_orders;
    match m !! Order._id doc with
    | Some _ => throw (DuplicateKeyError (Order._id doc))
    | None => put_orders (<[Order._id doc := doc]> m);; mret doc
    end
  end.

(** ** Requests *)

Module PlaceOrderBody.
(** [rest] holds whatever else the client put in the JSON body. *)
Record t : Type := mk {
  items : option (list Item.t);
  address : option Address.t;
  paymentMethod : option string;
  rest : list (string * JVal)
}.
End PlaceOrderBody.

Module OrderIdBody.
Record t : Type := mk {
  orderId : string;
  rest : list (string * JVal)
}.
End OrderIdBody.

Module StatusBody.
Record t : Type := mk {
  status : option string;
  rest : list (string * JVal)
}.
End StatusBody.

(** ** Middleware *)

Definition space : ascii := Ascii.ascii_of_nat 32.

(** [s.split(" ")] *)
Fixpoint split_space (s : string) : list string :=
  match s with
  | EmptyString => [EmptyString]
  | String c rest =>
    let parts := split_space rest in
    if Ascii.eqb c space then EmptyString :: parts
    else match parts with
         | p :: ps => String c p :: ps
         | [] => [String c EmptyString]
         end
  end.

Definition fail_json (code : nat) (message : string) : Response :=
  mkResponse code [("success", BBool false); ("message", BStr message)].

Definition authenticateToken (env : Env) (authorization : option string)
    (next : User -> Eff Response) : Eff Response :=
  let authHeader := authorization in
  let token := if truthy_str authHeader
               then (h ← authHeader; split_space h !! 1%nat)
               else authHeader in
  if negb (truthy_str token) then mret (fail_json 401 "No token provided")
  else match jwt_verify env (default "" token) with
       | None => mret (fail_json 403 "Invalid token")
       | Some user => next user
       end.

Definition requireAdmin (user : User) (next : Eff Response) : Eff Response :=
  if negb (String.eqb (role user) "admin")
  then mret (fail_json 403 "Admin access required")
  else next.

(** ** Routes *)

(** The reducer of [/placeorder]:
    [items.reduce((sum, item) => sum + item.price * item.quantity, 0)] *)
Definition reduce_total (items : list Item.t) : float :=
  fold_left (fun sum item => (sum + Item.price item * Item.quantity item)%float) items 0%float.

Definition items_missing (items : option (list Item.t)) : bool :=
  match items with
  | None => true
  | Some l => (length l =? 0)%nat
  end.

Definition placeorder (env : Env) (user : User) (body : PlaceOrderBody.t) : Eff Response :=
  try_catch
    (let items := PlaceOrderBody.items body in
     let address := PlaceOrderBody.address body in
     let paymentMethod := PlaceOrderBody.paymentMethod body in
     let userEmail := email user in
     if items_missing items then mret (fail_json 400 "No items provided")
     else if negb (truthy_str paymentMethod) then mret (fail_json 400 "Payment method required")
     else
       let totalAmount := reduce_total (default [] items) in
       newOrder ← Order_save env
         {| init_userEmail := userEmail;
            init_items := default [] items;
            init_totalAmount := totalAmount;
            init_shippingAddress := address;
            init_paymentMethod := paymentMethod;
            init_paymentStatus :=
              if bool_decide (paymentMethod = Some "COD") then PENDING else PENDING |};
       mret (res_json
               [("success", BBool true);
                ("message",
                 BStr (if bool_decide (paymentMethod = Some "COD")
                       then "Order placed with Cash on Delivery"
                       else "Order created. Proceed to online payment"));
                ("order", BOrder newOrder)]))
    (fun err =>
       console_error "Place Order Error:" (LogErr err);;
       mret (fail_json 500 (err_message err))).

Definition phone_invalid (phone : option string) : bool :=
  match phone with
  | None => true
  | Some p => String.eqb p "" || negb (js_length p =? 10)%nat
  end.

Definition cashfree_payload (env : Env) (order : Order.t) : Payload :=
  {| order_id := Order._id order;
     order_amount := Order.totalAmount order;
     order_currency := "INR";
     customer_id := Order.userEmail order;
     customer_email := Order.userEmail order;
     customer_phone := default "" (Address.phone (Order.shippingAddress order));
     return_url := template_str (FRONTEND_URL env) ++ "/payment-success?order_id="
                   ++ Order._id order |}.

(** The labels of the three [console.error] lines are given without the
    emoji they start with in the source. *)
Definition create_cashfree_order (env : Env) (user : User) (body : OrderIdBody.t)
    : Eff Response :=
  try_catch
    (let orderId := OrderIdBody.orderId body in
     found ← Order_findById orderId;
     match found with
     | None => mret (fail_json 404 "Order not found")
     | Some order =>
       if negb (bool_decide (Order.paymentMethod order = ONLINE))
       then mret (fail_json 400 "Invalid payment method")
       else if phone_invalid (Address.phone (Order.shippingAddress order))
       then mret (fail_json 400 "Invalid phone number")
       else
         let payload := cashfree_payload env order in
         cfRes ← await_pgAxios env (GwPost "/checkout/orders" payload);
         if negb (truthy (opt_chain (ax_data cfRes) "payment_session_id"))
         then mret (mkResponse 500
                      [("success", BBool false);
                       ("message", BStr "Failed to create Cashfree payment session");
                       ("raw", BVal (ax_data cfRes))])
         else mret (res_json
                      [("success", BBool true);
                       ("payment_session_id", BVal (get_prop (ax_data cfRes) "payment_session_id"));
                       ("order_id", BVal (get_prop (ax_data cfRes) "order_id"))])
     end)
    (fun err =>
       console_error "CASHFREE ERROR STATUS:" (LogStatus (err_response_status err));;
       console_error "CASHFREE ERROR DATA:" (LogJsonText (err_response_data err));;
       console_error "CASHFREE MESSAGE:" (LogMessage (err_message err));;
       mret (mkResponse 500
               [("success", BBool false);
                ("cashfreeError", BVal (err_response_data err))])).

(** [data.order_status]: reading a property of [null] or [undefined] throws. *)
Definition read_order_status (data : JVal) : Eff JVal :=
  if is_nullish data
  then throw (TypeError "Cannot read properties of undefined (reading 'order_status')")
  else mret (get_prop data "order_status").

Definition paid_update : OrderUpdate :=
  {| upd_paymentStatus := Some PAID; upd_status := Some "Confirmed" |}.

Definition verify_payment (env : Env) (user : User) (body : OrderIdBody.t)
    : Eff Response :=
  try_catch
    (let orderId := OrderIdBody.orderId body in
     response ← await_pgAxios env (GwGet ("/orders/" ++ orderId));
     paymentStatus ← read_order_status (ax_data response);
     if strict_eq_str paymentStatus "PAID"
     then
       Order_findByIdAndUpdate orderId paid_update;;
       mret (res_json [("success", BBool true)])
     else mret (res_json [("success", BBool false)]))
    (fun err =>
       console_error "Verify Error:"
         (LogVal (js_or (err_response_data err) (JStr (err_message err))));;
       mret (mkResponse 500 [("success", BBool false)])).

Definition admin_update_order (env : Env) (user : User) (id : string) (body : StatusBody.t)
    : Eff Response :=
  try_catch
    (let status := StatusBody.status body in
     Order_findByIdAndUpdate id {| upd_paymentStatus := None; upd_status := status |};;
     mret (res_json [("success", BBool true)]))
    (fun err => mret (fail_json 500 (err_message err))).

(** ** The server as a transition system *)

(** A request to one of the order routes: the [Authorization] header and
    what the route reads from the request. *)
Inductive Op : Type :=
| PlaceOrder (authorization : option string) (body : PlaceOrderBody.t)
| CreateCashfreeOrder (authorization : option string) (body : OrderIdBody.t)
| VerifyPayment (authorization : option string) (body : OrderIdBody.t)
| AdminUpdateOrder (authorization : option string) (id : string) (body : StatusBody.t).

(** [app.post(path, authenticateToken, ..., handler)] *)
Definition route (env : Env) (op : Op) : Eff Response :=
  match op with
  | PlaceOrder auth body =>
    authenticateToken env auth (fun user => placeorder env user body)
  | CreateCashfreeOrder auth body =>
    authenticateToken env auth (fun user => create_cashfree_order env user body)
  | VerifyPayment auth body =>
    authenticateToken env auth (fun user => verify_payment env user body)
  | AdminUpdateOrder auth id body =>
    authenticateToken env auth (fun user =>
      requireAdmin user (admin_update_order env user id body))
  end.

(** Serving a sequence of requests, each in the environment of its time. *)
Fixpoint serve (reqs : list (Env * Op)) (w : World) : World :=
  match reqs with
  | [] => w
  | (env, op) :: rest => serve rest (snd (route env op w))
  end.

(** ** Vocabulary for the properties *)

(** The worlds a handler's steps lead to. *)
Definition log_line (label : string) (arg : LogArg) (w : World) : World :=
  mkWorld (db w) (gateway_calls w) (console w ++ [(label, arg)]).

Definition with_orders (m : gmap string Order.t) (w : World) : World :=
  mkWorld (set_orders m (db w)) (gateway_calls w) (console w).

Definition with_call (c : GwCall) (w : World) : World :=
  mkWorld (db w) (gateway_calls w ++ [c]) (console w).

Definition with_products (ps : list Product.t) (w : World) : World :=
  mkWorld (mkDb (orders (db w)) ps) (gateway_calls w) (console w).

(** The caller the token middleware lets through, if any. *)
Definition caller (env : Env) (authorization : option string) : option User :=
  h ← authorization;
  token ← split_space h !! 1%nat;
  if String.eqb token "" then None else jwt_verify env token.

(** Whether the gateway, asked about [orderId], reports the status [PAID]. *)
Definition gateway_paid (env : Env) (orderId : string) : bool :=
  match pgAxios env (GwGet ("/orders/" ++ orderId)) with
  | Fulfilled r => strict_eq_str (get_prop (ax_data r) "order_status") "PAID"
  | Rejected _ => false
  end.

(** The [success] flag of the JSON answer: the specification's [confirmed]. *)
Definition confirmed (c : Completion Response) : option bool :=
  match c with
  | Normal r =>
    match assoc_get "success" (json r) with
    | Some (BBool b) => Some b
    | _ => None
    end
  | Thrown _ => None
  end.

Definition answered (c : Completion Response) (code : nat) : Prop :=
  exists r, c = Normal r /\ status_code r = code.

(** *** [/placeorder] *)

Definition placeorder_init (user : User) (body : PlaceOrderBody.t) : OrderInit :=
  {| init_userEmail := email user;
     init_items := default [] (PlaceOrderBody.items body);
     init_totalAmount := reduce_total (default [] (PlaceOrderBody.items body));
     init_shippingAddress := PlaceOrderBody.address body;
     init_paymentMethod := PlaceOrderBody.paymentMethod body;
     init_paymentStatus := PENDING |}.

Definition placeorder_message (pm : option string) : string :=
  if bool_decide (pm = Some "COD")
  then "Order placed with Cash on Delivery"
  else "Order created. Proceed to online payment".

Definition placeorder_ok (pm : option string) (o : Order.t) : Response :=
  res_json [("success", BBool true);
            ("message", BStr (placeorder_message pm));
            ("order", BOrder o)].

Definition placeorder_failed (e : JsError) (w : World) : Completion Response * World :=
  (Normal (fail_json 500 (err_message e)), log_line "Place Order Error:" (LogErr e) w).

(** A line item that passes the casts of [save()]: its quantity and price
    are Numbers, and its product id, if it has one, is the text of an
    [ObjectId]. *)
Definition item_acceptable (it : Item.t) : Prop :=
  PrimFloat.is_nan (Item.quantity it) = false /\
  PrimFloat.is_nan (Item.price it) = false /\
  match Item.productId it with
  | None => True
  | Some s => is_Some (castObjectId s)
  end.

(** The specification's total: the line totals, quantity times unit price,
    added up in the order of the line items, starting from 0. *)
Definition line_total (it : Item.t) : float := (Item.quantity it * Item.price it)%float.

Fixpoint sum_from (acc : float) (xs : list float) : float :=
  match xs with
  | [] => acc
  | x :: rest => sum_from (acc + x)%float rest
  end.

Definition spec_totalAmount (items : list Item.t) : float :=
  sum_from 0%float (map line_total items).

(** *** [/create-cashfree-order] *)

Definition session_created (data : JVal) : Response :=
  res_json [("success", BBool true);
            ("payment_session_id", BVal (get_prop data "payment_session_id"));
            ("order_id", BVal (get_prop data "order_id"))].

Definition session_missing (data : JVal) : Response :=
  mkResponse 500 [("success", BBool false);
                  ("message", BStr "Failed to create Cashfree payment session");
                  ("raw", BVal data)].

Definition cashfree_failed_response (e : JsError) : Response :=
  mkResponse 500 [("success", BBool false);
                  ("cashfreeError", BVal (err_response_data e))].

Definition cashfree_failed (e : JsError) (w : World) : Completion Response * World :=
  (Normal (cashfree_failed_response e),
   log_line "CASHFREE MESSAGE:" (LogMessage (err_message e))
     (log_line "CASHFREE ERROR DATA:" (LogJsonText (err_response_data e))
        (log_line "CASHFREE ERROR STATUS:" (LogStatus (err_response_status e)) w))).

Definition checkout_call (env : Env) (order : Order.t) : GwCall :=
  GwPost "/checkout/orders" (cashfree_payload env order).

(** The specification's phone format: exactly ten digits. *)
Definition is_digit (c : ascii) : bool :=
  let n := nat_of_ascii c in ((48 <=? n) && (n <=? 57))%nat.

Definition ten_digits (phone : option string) : bool :=
  match phone with
  | Some p => (js_length p =? 10)%nat && string_forallb is_digit p
  | None => false
  end.

(** What the route checks instead: a phone that is present and whose
    [length] is ten (UTF-16 code units). *)
Definition ten_chars (phone : option string) : bool :=
  match phone with
  | Some p => (js_length p =? 10)%nat
  | None => false
  end.

(** *** [/verify-payment] *)

Definition verify_answer (b : bool) : Response := res_json [("success", BBool b)].

Definition verify_failed_response : Response := mkResponse 500 [("success", BBool false)].

Definition verify_failed (e : JsError) (w : World) : Completion Response * World :=
  (Normal verify_failed_response,
   log_line "Verify Error:"
     (LogVal (js_or (err_response_data e) (JStr (err_message e)))) w).

Definition status_call (orderId : string) : GwCall := GwGet ("/orders/" ++ orderId).

(** *** The payment status from one request to the next *)

(** How one request can change what is stored under one id. *)
Definition order_step (env : Env) (op : Op) (oid : string)
    (before after : option Order.t) : Prop :=
  match before, after with
  | None, None => True
  | None, Some o' =>
    Order.paymentStatus o' = PENDING /\ exists auth body, op = PlaceOrder auth body
  | Some o, None => False
  | Some o, Some o' =>
    Order.paymentStatus o' = Order.paymentStatus o \/
    (Order.paymentStatus o = PENDING /\ Order.paymentStatus o' = PAID /\
     exists auth body,
       op = VerifyPayment auth body /\
       is_Some (caller env auth) /\
       castObjectId (OrderIdBody.orderId body) = Some oid /\
       gateway_paid env (OrderIdBody.orderId body) = true)
  end.

(** ** Sample data *)

Module Sample.

Definition alice : User := mkUser "alice" "alice@example.com" "user".
Definition bob : User := mkUser "bob" "bob@example.com" "admin".

Definition jwt (token : string) : option User :=
  if String.eqb token "tok-alice" then Some alice
  else if String.eqb token "tok-bob" then Some bob
  else None.

Definition id1 : string := "64b7f0c2a1b2c3d4e5f60718".
Definition id2 : string := "64b7f0c2a1b2c3d4e5f60719".
Definition id3 : string := "64b7f0c2a1b2c3d4e5f6071a".

(** A gateway that opens a session for every order it is sent and reports
    [PAID] for [id1] and for ["legacy-42"], an order it knows from
    elsewhere, and [ACTIVE] for the rest. *)
Definition gateway (c : GwCall) : AxiosResult :=
  match c with
  | GwPost _ p =>
    Fulfilled (mkAxiosResponse 200
      (JObj [("payment_session_id", JStr "session_abc");
             ("order_id", JStr (order_id p));
             ("order_status", JStr "ACTIVE")]))
  | GwGet url =>
    Fulfilled (mkAxiosResponse 200
      (JObj [("order_status",
              JStr (if String.eqb url ("/orders/" ++ id1) || String.eqb url "/orders/legacy-42"
                    then "PAID" else "ACTIVE"))]))
  end.

(** A gateway that refuses every request with the given status and body. *)
Definition refusing (status : nat) (data : JVal) (c : GwCall) : AxiosResult :=
  Rejected (mkJsError "AxiosError" "Request failed" (Some (mkAxiosResponse status data))).

Definition env_with (gw : GwCall -> AxiosResult) (fresh : string) : Env :=
  {| jwt_verify := jwt;
     pgAxios := gw;
     FRONTEND_URL := Some "https://shop.example";
     new_ObjectId := fresh;
     Date_now := 1700000000000%float |}.

Definition env : Env := env_with gateway id1.

Definition item (q p : float) : Item.t := Item.mk None (Some "item") q p None.

Definition address_with (phone : option string) : Address.t :=
  Address.mk (Some "A. Kumar") (Some "1 Main Road") (Some "Pune") (Some "MH")
             (Some "411001") phone.

Definition order_with (id : string) (method : PaymentMethod) (phone : option string)
    (ps : PaymentStatus) : Order.t :=
  Order.mk id "alice@example.com" [item 2 100; item 1 50] 250%float
           (address_with phone) method ps "Processing" 1700000000000%float.

Definition world_of (os : list Order.t) : World :=
  mkWorld (mkDb (list_to_map (map (fun o => (Order._id o, o)) os)) []) [] [].

Definition empty_world : World := world_of [].

(** One pending ONLINE order with a ten-digit phone. *)
Definition online_world : World :=
  world_of [order_with id1 ONLINE (Some "9876543210") PENDING].

(** The spec's scenario: two lines, 2 at 100 and 1 at 50, cash on delivery;
    the client also sends a total of its own. *)
Definition cod_body : PlaceOrderBody.t :=
  PlaceOrderBody.mk (Some [item 2 100; item 1 50])
                    (Some (address_with (Some "9876543210")))
                    (Some "COD")
                    [("totalAmount", JNum 1%float)].

(** The letter e-acute (U+00E9): two bytes of UTF-8, one UTF-16 code unit. *)
Definition e_acute : string :=
  String (ascii_of_nat 195) (String (ascii_of_nat 169) EmptyString).

Fixpoint times (n : nat) (s : string) : string :=
  match n with
  | O => EmptyString
  | S n' => s ++ times n' s
  end.

(** A negative quantity, a zero quantity and a negative price. *)
Definition odd_items : list Item.t := [item (-2) 100; item 0 80; item 1 (-50)].

Definition product : Product.t :=
  Product.mk 7000%float "item" [] "misc" 999%float 1200%float 1700000000000%float true.

End Sample.

(** ** The rest of the server: order listings, the catalogue, accounts *)

(** *** Sorted queries *)

(** [.sort({ key: -1 })]: descending by a Number key. The order among
    documents with equal keys is the database's to choose; here it is that
    of an insertion sort. *)
Fixpoint insert_desc {A : Type} (key : A -> float) (x : A) (l : list A) : list A :=
  match l with
  | [] => [x]
  | y :: rest =>
    if (key y <=? key x)%float then x :: y :: rest else y :: insert_desc key x rest
  end.

Definition sort_desc {A : Type} (key : A -> float) (l : list A) : list A :=
  foldr (insert_desc key) [] l.

(** [x] comes strictly before [y] in ascending order. *)
Definition strictly_less (x y : float) : bool :=
  (x <=? y)%float && negb (y <=? x)%float.

(** Two neighbours of a descending list: the first is not strictly less
    than the second. *)
Definition descending {A : Type} (key : A -> float) (a b : A) : Prop :=
  strictly_less (key a) (key b) = false.

(** *** Replies that carry documents *)

Inductive Reply : Type :=
| Json (r : Response)
| OrdersReply (orders : list Order.t)
| ProductReply (product : Product.t)
| ProductsReply (products : list Product.t).

(** The two middlewares again, in front of a handler that answers with a
    [Reply]; at [Response] they are [authenticateToken] and [requireAdmin]. *)
Definition authenticateToken_for {R : Type} (json : Response -> R) (env : Env)
    (authorization : option string) (next : User -> Eff R) : Eff R :=
  let authHeader := authorization in
  let token := if truthy_str authHeader
               then (h ← authHeader; split_space h !! 1%nat)
               else authHeader in
  if negb (truthy_str token) then mret (json (fail_json 401 "No token provided"))
  else match jwt_verify env (default "" token) with
       | None => mret (json (fail_json 403 "Invalid token"))
       | Some user => next user
       end.

Definition requireAdmin_for {R : Type} (json : Response -> R) (user : User)
    (next : Eff R) : Eff R :=
  if negb (String.eqb (role user) "admin")
  then mret (json (fail_json 403 "Admin access required"))
  else next.

(** *** [GET /orders] and [GET /admin/orders] *)

(** [Order.find(filter).sort({ createdAt: -1 })] *)
Definition Order_find_sorted (filter : Order.t -> bool) : Eff (list Order.t) :=
  m ← get_orders;
  mret (sort_desc Order.createdAt (List.filter filter (map snd (map_to_list m)))).

Definition list_orders (env : Env) (user : User) : Eff Reply :=
  try_catch
    (let userEmail := email user in
     orders ← Order_find_sorted (fun o => String.eqb (Order.userEmail o) userEmail);
     mret (OrdersReply orders))
    (fun err => mret (Json (fail_json 500 (err_message err)))).

Definition admin_list_orders (env : Env) (user : User) : Eff Reply :=
  try_catch
    (orders ← Order_find_sorted (fun _ => true);
     mret (OrdersReply orders))
    (fun err => mret (Json (fail_json 500 (err_message err)))).

(** *** The catalogue: [/addproduct], [/removeproduct], [/allproducts] *)

(** What the server's libraries compute: [Number(s)] for a string, bcrypt's
    hash (salted, so it is the hash made at this call) and comparison, and
    the token [jwt.sign] makes for a payload. *)
Record Lib : Type := mkLib {
  StringToNumber : string -> float;
  bcrypt_hash : string -> string;
  bcrypt_compare : string -> string -> bool;
  jwt_sign : User -> string
}.

(** A price as the client may send it: a JSON number or a string. *)
Inductive NumOrStr : Type :=
| Num (n : float)
| Str (s : string).

(** [images] as the client may send it: one string or an array of them. *)
Inductive Images : Type :=
| OneImage (s : string)
| ImageArray (l : list string).

Module ProductBody.
Record t : Type := mk {
  name : option string;
  images : option Images;
  category : option string;
  new_price : option NumOrStr;
  old_price : option NumOrStr;
  rest : list (string * JVal)
}.
End ProductBody.

(** [!price] *)
Definition price_missing (p : option NumOrStr) : bool :=
  match p with
  | None => true
  | Some (Num n) => PrimFloat.is_zero n || PrimFloat.is_nan n
  | Some (Str s) => String.eqb s ""
  end.

(** [Number(price)] *)
Definition to_number (lib : Lib) (p : option NumOrStr) : float :=
  match p with
  | None => PrimFloat.nan
  | Some (Num n) => n
  | Some (Str s) => StringToNumber lib s
  end.

(** [!images || images.length === 0] *)
Definition images_missing (i : option Images) : bool :=
  match i with
  | None => true
  | Some (OneImage s) => String.eqb s "" || (js_length s =? 0)%nat
  | Some (ImageArray l) => (length l =? 0)%nat
  end.

(** [Array.isArray(images) ? images : [images]] *)
Definition images_array (i : option Images) : list string :=
  match i with
  | None => []
  | Some (OneImage s) => [s]
  | Some (ImageArray l) => l
  end.

Definition get_products : Eff (list Product.t) :=
  fun w => (Normal (products (db w)), w).

Definition put_products (ps : list Product.t) : Eff unit :=
  fun w => (Normal tt, with_products ps w).

(** [Product.findOne({}).sort({ id: -1 })] *)
Definition Product_findOne_last : Eff (option Product.t) :=
  ps ← get_products; mret (head (sort_desc Product.id ps)).

Record ProductInit : Type := mkProductInit {
  init_id : float;
  init_name : option string;
  init_images : list string;
  init_category : option string;
  init_new_price : float;
  init_old_price : float
}.

Definition ProductValidationError (path : string) : JsError :=
  mkJsError "ValidationError" ("product validation failed: " ++ path) None.

(** [new Product(init)] and the validation [save()] runs: the [required]
    paths and the Number casts of the schema; [date] and [available] get
    their defaults. *)
Definition new_Product (env : Env) (init : ProductInit) : JsError + Product.t :=
  if PrimFloat.is_nan (init_id init) then inl (ProductValidationError "id")
  else if negb (truthy_str (init_name init)) then inl (ProductValidationError "name")
  else if negb (forallb (fun s => negb (String.eqb s "")) (init_images init))
  then inl (ProductValidationError "images")
  else if negb (truthy_str (init_category init)) then inl (ProductValidationError "category")
  else if PrimFloat.is_nan (init_new_price init) then inl (ProductValidationError "new_price")
  else if PrimFloat.is_nan (init_old_price init) then inl (ProductValidationError "old_price")
  else inr (Product.mk (init_id init)
                       (default "" (init_name init))
                       (init_images init)
                       (default "" (init_category init))
                       (init_new_price init)
                       (init_old_price init)
                       (Date_now env)
                       true).

(** [await product.save()]: the [unique] index on [id] refuses a second
    product with an equal id. *)
Definition Product_save (env : Env) (init : ProductInit) : Eff Product.t :=
  match new_Product env init with
  | inl e => throw e
  | inr doc =>
    ps ← get_products;
    if existsb (fun p => (Product.id p =? Product.id doc)%float) ps
    then throw (mkJsError "MongoServerError" "E11000 duplicate key error: id" None)
    else put_products (ps ++ [doc]);; mret doc
  end.

(** Without the first element that satisfies [p]. *)
Fixpoint remove_first {A : Type} (p : A -> bool) (l : list A) : list A :=
  match l with
  | [] => []
  | x :: rest => if p x then rest else x :: remove_first p rest
  end.

(** [Product.findOneAndDelete({ id })] for a Number [id] *)
Definition Product_findOneAndDelete (id : float) : Eff unit :=
  ps ← get_products;
  put_products (remove_first (fun p => (Product.id p =? id)%float) ps).

(** [console.log] lines are not recorded; [console] holds what
    [console.error] prints. *)
Definition addproduct (env : Env) (lib : Lib) (user : User) (body : ProductBody.t)
    : Eff Reply :=
  try_catch
    (let name := ProductBody.name body in
     let images := ProductBody.images body in
     let category := ProductBody.category body in
     let new_price := ProductBody.new_price body in
     let old_price := ProductBody.old_price body in
     if negb (truthy_str name) || images_missing images || negb (truthy_str category)
        || price_missing new_price || price_missing old_price
     then mret (Json (fail_json 400 "All product fields are required"))
     else
       lastProduct ← Product_findOne_last;
       let newId := match lastProduct with
                    | Some p => (Product.id p + 1)%float
                    | None => 7000%float
                    end in
       product ← Product_save env
         {| init_id := newId;
            init_name := name;
            init_images := images_array images;
            init_category := category;
            init_new_price := to_number lib new_price;
            init_old_price := to_number lib old_price |};
       mret (ProductReply product))
    (fun err =>
       console_error "Add Product Error:" (LogErr err);;
       mret (Json (fail_json 500 (err_message err)))).

(** The route is modelled for a body whose [id] is a Number. *)
Definition removeproduct (env : Env) (user : User) (id : float) : Eff Reply :=
  try_catch
    (Product_findOneAndDelete id;;
     mret (Json (res_json [("success", BBool true)])))
    (fun err =>
       console_error "Remove Product Error:" (LogErr err);;
       mret (Json (fail_json 500 (err_message err)))).

Definition allproducts (env : Env) : Eff Reply :=
  try_catch
    (ps ← get_products;
     let products := sort_desc Product.date ps in
     mret (ProductsReply products))
    (fun err =>
       console_error "Get All Products Error:" (LogErr err);;
       mret (Json (fail_json 500 (err_message err)))).

(** *** Accounts: [/signup] and [/login] *)

Module Account.
Record t : Type := mk {
  username : string;
  email : string;
  password : string;
  role : string
}.
End Account.

(** The server with its User collection. *)
Record Site : Type := mkSite {
  world : World;
  users : list Account.t
}.

Definition SEff (A : Type) : Type := Site -> Completion A * Site.

#[global] Instance SEff_ret : MRet SEff := fun A a s => (Normal a, s).

#[global] Instance SEff_bind : MBind SEff := fun A B k m s =>
  match m s with
  | (Normal a, s') => k a s'
  | (Thrown e, s') => (Thrown e, s')
  end.

Definition sthrow {A : Type} (e : JsError) : SEff A := fun s => (Thrown e, s).

Definition stry_catch {A : Type} (body : SEff A) (handler : JsError -> SEff A) : SEff A :=
  fun s =>
    match body s with
    | (Normal a, s') => (Normal a, s')
    | (Thrown e, s') => handler e s'
    end.

(** A handler of the order and catalogue routes, run in the whole server. *)
Definition in_world {A : Type} (m : Eff A) : SEff A :=
  fun s => let '(c, w) := m (world s) in (c, mkSite w (users s)).

Definition get_users : SEff (list Account.t) := fun s => (Normal (users s), s).

Definition put_users (us : list Account.t) : SEff unit :=
  fun s => (Normal tt, mkSite (world s) us).

(** [User.findOne({ email })] *)
Definition User_findOne (email : string) : SEff (option Account.t) :=
  us ← get_users; mret (List.find (fun u => String.eqb (Account.email u) email) us).

Definition UserValidationError (path : string) : JsError :=
  mkJsError "ValidationError" ("user validation failed: " ++ path) None.

(** [new User({ username, email, password }).save()]: the three [required]
    paths, the default [role], and the [unique] index on [email]. *)
Definition User_save (username email password : string) : SEff Account.t :=
  if String.eqb username "" then sthrow (UserValidationError "username")
  else if String.eqb email "" then sthrow (UserValidationError "email")
  else if String.eqb password "" then sthrow (UserValidationError "password")
  else
    us ← get_users;
    if existsb (fun u => String.eqb (Account.email u) email) us
    then sthrow (mkJsError "MongoServerError" "E11000 duplicate key error: email" None)
    else
      let doc := Account.mk username email password "user" in
      put_users (us ++ [doc]);; mret doc.

Module SignupBody.
Record t : Type := mk {
  username : option string;
  email : option string;
  password : option string;
  rest : list (string * JVal)
}.
End SignupBody.

Module LoginBody.
Record t : Type := mk {
  email : option string;
  password : option string;
  rest : list (string * JVal)
}.
End LoginBody.

Definition signup (lib : Lib) (body : SignupBody.t) : SEff Response :=
  stry_catch
    (let username := SignupBody.username body in
     let email := SignupBody.email body in
     let password := SignupBody.password body in
     if negb (truthy_str username) || negb (truthy_str email) || negb (truthy_str password)
     then mret (fail_json 400 "All fields are required")
     else
       existingUser ← User_findOne (default "" email);
       if bool_decide (is_Some existingUser)
       then mret (fail_json 400 "Email already exists")
       else
         let hashedPassword := bcrypt_hash lib (default "" password) in
         _ ← User_save (default "" username) (default "" email) hashedPassword;
         mret (res_json [("success", BBool true);
                         ("message", BStr "User registered successfully")]))
    (fun err =>
       in_world (console_error "Signup Error:" (LogErr err));;
       mret (fail_json 500 (err_message err))).

Definition login (lib : Lib) (body : LoginBody.t) : SEff Response :=
  stry_catch
    (let email := LoginBody.email body in
     let password := LoginBody.password body in
     if negb (truthy_str email) || negb (truthy_str password)
     then mret (fail_json 400 "Email and password required")
     else
       found ← User_findOne (default "" email);
       match found with
       | None => mret (fail_json 400 "Invalid email")
       | Some user =>
         let isMatch := bcrypt_compare lib (default "" password) (Account.password user) in
         if negb isMatch then mret (fail_json 400 "Invalid password")
         else
           let token := jwt_sign lib (mkUser (Account.username user) (Account.email user)
                                             (Account.role user)) in
           mret (res_json [("success", BBool true);
                           ("token", BStr token);
                           ("role", BStr (Account.role user))])
       end)
    (fun err =>
       in_world (console_error "Login Error:" (LogErr err));;
       mret (fail_json 500 (err_message err))).

(** *** The whole server *)

Inductive Request : Type :=
| OrderRoute (op : Op)
| GetOrders (authorization : option string)
| GetAdminOrders (authorization : option string)
| AddProduct (authorization : option string) (body : ProductBody.t)
| RemoveProduct (authorization : option string) (id : float)
| AllProducts
| Signup (body : SignupBody.t)
| Login (body : LoginBody.t).

Definition handle (env : Env) (lib : Lib) (req : Request) : SEff Reply :=
  match req with
  | OrderRoute op => in_world (r ← route env op; mret (Json r))
  | GetOrders auth =>
    in_world (authenticateToken_for Json env auth (fun user => list_orders env user))
  | GetAdminOrders auth =>
    in_world (authenticateToken_for Json env auth (fun user =>
      requireAdmin_for Json user (admin_list_orders env user)))
  | AddProduct auth body =>
    in_world (authenticateToken_for Json env auth (fun user =>
      requireAdmin_for Json user (addproduct env lib user body)))
  | RemoveProduct auth id =>
    in_world (authenticateToken_for Json env auth (fun user =>
      requireAdmin_for Json user (removeproduct env user id)))
  | AllProducts => in_world (allproducts env)
  | Signup body => r ← signup lib body; mret (Json r)
  | Login body => r ← login lib body; mret (Json r)
  end.

(** Serving a sequence of requests to any of the routes. *)
Fixpoint run (reqs : list (Env * Lib * Request)) (s : Site) : Site :=
  match reqs with
  | [] => s
  | (env, lib, req) :: rest => run rest (snd (handle env lib req s))
  end.

(** *** Vocabulary for these routes *)

(** A word of the [Authorization] header: text without a space. *)
Definition no_space (s : string) : bool :=
  string_forallb (fun c => negb (Ascii.eqb c space)) s.

(** The documents of the Order collection. *)
Definition stored_orders (w : World) : list Order.t :=
  map snd (map_to_list (orders (db w))).

(** *** More sample data *)

Module Demo.

Definition lib : Lib :=
  {| StringToNumber := fun s =>
       if String.eqb s "0" then 0%float
       else if String.eqb s "999" then 999%float
       else PrimFloat.nan;
     bcrypt_hash := fun p => "$2a$10$" ++ p;
     bcrypt_compare := fun p h => String.eqb h ("$2a$10$" ++ p);
     jwt_sign := fun u => "tok-" ++ username u |}.

Definition order_of (id owner : string) (at_ : float) : Order.t :=
  Order.mk id owner [Sample.item 1 10] 10%float
           (Sample.address_with (Some "9876543210")) COD PENDING "Processing" at_.

Definition o1 : Order.t := order_of Sample.id1 "alice@example.com" 100%float.
Definition o2 : Order.t := order_of Sample.id2 "bob@example.com" 200%float.
Definition o3 : Order.t := order_of Sample.id3 "alice@example.com" 300%float.

Definition pen : Product.t :=
  Product.mk 7000%float "pen" ["pen.png"] "office" 10%float 12%float 100%float true.
Definition ink : Product.t :=
  Product.mk 7001%float "ink" ["ink.png"] "office" 5%float 6%float 200%float true.

Definition carol : Account.t := Account.mk "carol" "carol@example.com" "$2a$10$pw" "admin".

(** Three orders of two customers, two products, one administrator. *)
Definition site : Site :=
  mkSite (with_products [pen; ink] (Sample.world_of [o1; o2; o3])) [carol].

Definition empty_site : Site := mkSite Sample.empty_world [].

Definition product_body (price : option NumOrStr) : ProductBody.t :=
  ProductBody.mk (Some "cap") (Some (OneImage "cap.png")) (Some "office")
                 price (Some (Num 3%float)) [].

End Demo.

(** What never changes in a stored order: everything but the two statuses. *)
Definition same_core (o o' : Order.t) : Prop :=
  Order._id o' = Order._id o /\
  Order.userEmail o' = Order.userEmail o /\
  Order.items o' = Order.items o /\
  Order.totalAmount o' = Order.totalAmount o /\
  Order.shippingAddress o' = Order.shippingAddress o /\
  Order.paymentMethod o' = Order.paymentMethod o /\
  Order.createdAt o' = Order.createdAt o.

(** The id [/addproduct] gives the next product. *)
Definition next_product_id (ps : list Product.t) : float :=
  match head (sort_desc Product.id ps) with
  | Some p => (Product.id p + 1)%float
  | None => 7000%float
  end.

(** The guard of [/addproduct]: some field is missing, empty or zero. *)
Definition product_fields_missing (body : ProductBody.t) : bool :=
  negb (truthy_str (ProductBody.name body)) || images_missing (ProductBody.images body)
  || negb (truthy_str (ProductBody.category body))
  || price_missing (ProductBody.new_price body) || price_missing (ProductBody.old_price body).

Definition addproduct_init (lib : Lib) (body : ProductBody.t) (ps : list Product.t)
    : ProductInit :=
  {| init_id := next_product_id ps;
     init_name := ProductBody.name body;
     init_images := images_array (ProductBody.images body);
     init_category := ProductBody.category body;
     init_new_price := to_number lib (ProductBody.new_price body);
     init_old_price := to_number lib (ProductBody.old_price body) |}.

Definition addproduct_failed (e : JsError) (w : World) : Completion Reply * World :=
  (Normal (Json (fail_json 500 (err_message e))),
   log_line "Add Product Error:" (LogErr e) w).

Definition has_id (id : float) (p : Product.t) : bool := (Product.id p =? id)%float.

(** A request to change the catalogue made by an administrator. *)
Definition admin_catalogue_request (env : Env) (req : Request) : Prop :=
  exists auth user,
    caller env auth = Some user /\ role user = "admin" /\
    ((exists body, req = AddProduct auth body) \/ (exists id, req = RemoveProduct auth id)).

Definition is_admin (u : Account.t) : Prop := Account.role u = "admin".

(** *** Accounts *)

Definition signup_fields_missing (body : SignupBody.t) : bool :=
  negb (truthy_str (SignupBody.username body)) || negb (truthy_str (SignupBody.email body))
  || negb (truthy_str (SignupBody.password body)).

Definition has_email (email : string) (u : Account.t) : bool :=
  String.eqb (Account.email u) email.

(** The account [/signup] stores. *)
Definition signup_account (lib : Lib) (body : SignupBody.t) : Account.t :=
  Account.mk (default "" (SignupBody.username body))
             (default "" (SignupBody.email body))
             (bcrypt_hash lib (default "" (SignupBody.password body)))
             "user".

Definition signup_ok : Response :=
  res_json [("success", BBool true); ("message", BStr "User registered successfully")].

Definition account_failed (label : string) (e : JsError) (s : Site)
    : Completion Response * Site :=
  (Normal (fail_json 500 (err_message e)),
   mkSite (log_line label (LogErr e) (world s)) (users s)).

(** The payload [/login] signs for an account. *)
Definition payload_of (u : Account.t) : User :=
  mkUser (Account.username u) (Account.email u) (Account.role u).

Definition login_ok (lib : Lib) (u : Account.t) : Response :=
  res_json [("success", BBool true);
            ("token", BStr (jwt_sign lib (payload_of u)));
            ("role", BStr (Account.role u))].

(** A key that is a Number proper, not [NaN]. *)
Definition is_number (x : float) : Prop := PrimFloat.is_nan x = false.

(** The second document does not come after the first in descending order
    of the key: its key is at most the first one's. *)
Definition at_most {A : Type} (key : A -> float) (a b : A) : Prop :=
  (key b <=? key a)%float = true.

(** A product body with another [new_price]. *)
Definition with_new_price (body : ProductBody.t) (price : option NumOrStr) : ProductBody.t :=
  ProductBody.mk (ProductBody.name body) (ProductBody.images body) (ProductBody.category body)
                 price (ProductBody.old_price body) (ProductBody.rest body).

(** * Properties *)

(** ** JavaScript numbers *)

Lemma float_mul_comm (x y : float) : (x * y)%float = (y * x)%float.
Proof.
  apply Prim2SF_inj. rewrite !mul_spec. unfold SF64mul, SpecFloat.SFmul.
  destruct (Prim2SF x) as [sx|sx| |sx mx ex], (Prim2SF y) as [sy|sy| |sy my ey];
    try reflexivity; try (now rewrite xorb_comm).
  now rewrite xorb_comm, Pos.mul_comm, Z.add_comm.
Qed.

(** Addition of Numbers is not associative, so the order in which the line
    totals are added is part of what "the sum" means. *)
Example float_add_not_assoc :
  ((9007199254740992 + 1) + 1)%float = 9007199254740992%float /\
  (9007199254740992 + (1 + 1))%float = 9007199254740994%float.
Proof. split; reflexivity. Qed.

(** ** The token middleware *)

Ltac eff_unfold :=
  unfold mbind, mret, Eff_bind, Eff_ret, try_catch, throw, console_error,
    get_orders, put_orders, await_pgAxios in *.

Lemma authenticateToken_caller env auth user (next : User -> Eff Response) :
  caller env auth = Some user ->
  authenticateToken env auth next = next user.
Proof.
  unfold caller, authenticateToken, truthy_str.
  destruct auth as [h|]; simpl; [|discriminate].
  destruct (String.eqb h "") eqn:Hh; simpl.
  - apply String.eqb_eq in Hh. subst h. simpl. discriminate.
  - destruct (split_space h !! 1%nat) as [token|]; simpl; [|discriminate].
    destruct (String.eqb token ""); simpl; [discriminate|].
    now intros ->.
Qed.

Lemma authenticateToken_refused env auth (next : User -> Eff Response) w :
  caller env auth = None ->
  exists r, authenticateToken env auth next w = (Normal r, w) /\
            (status_code r = 401 \/ status_code r = 403) /\
            assoc_get "success" (json r) = Some (BBool false).
Proof.
  unfold caller, authenticateToken, truthy_str. intros H.
  destruct auth as [h|]; simpl in *.
  - destruct (String.eqb h "") eqn:Hh; simpl.
    + rewrite Hh. eexists; split; [reflexivity|]. split; [now left|reflexivity].
    + destruct (split_space h !! 1%nat) as [token|]; simpl in *.
      * destruct (String.eqb token ""); simpl.
        -- eexists; split; [reflexivity|]. split; [now left|reflexivity].
        -- rewrite H. eexists; split; [reflexivity|]. split; [now right|reflexivity].
      * eexists; split; [reflexivity|]. split; [now left|reflexivity].
  - eexists; split; [reflexivity|]. split; [now left|reflexivity].
Qed.

(** ** [/placeorder] *)

(** The handler, one outcome per path through its body. *)
Lemma placeorder_paths env user body w :
  placeorder env user body w =
  if items_missing (PlaceOrderBody.items body)
  then (Normal (fail_json 400 "No items provided"), w)
  else if negb (truthy_str (PlaceOrderBody.paymentMethod body))
  then (Normal (fail_json 400 "Payment method required"), w)
  else match new_Order env (placeorder_init user body) with
       | inl e => placeorder_failed e w
       | inr doc =>
         match orders (db w) !! Order._id doc with
         | Some _ => placeorder_failed (DuplicateKeyError (Order._id doc)) w
         | None =>
           (Normal (placeorder_ok (PlaceOrderBody.paymentMethod body) doc),
            with_orders (<[Order._id doc := doc]> (orders (db w))) w)
         end
       end.
Proof.
  unfold placeorder, placeorder_init, Order_save. eff_unfold.
  destruct (items_missing _); [reflexivity|].
  destruct (negb (truthy_str _)); [reflexivity|].
  replace (if bool_decide (PlaceOrderBody.paymentMethod body = Some "COD")
           then PENDING else PENDING) with PENDING by (now case_bool_decide).
  destruct (new_Order env _) as [e|doc]; [reflexivity|].
  destruct (orders (db w) !! Order._id doc); reflexivity.
Qed.

Lemma new_Order_inr env init doc :
  new_Order env init = inr doc ->
  Order._id doc = new_ObjectId env /\
  Order.userEmail doc = init_userEmail init /\
  cast_items (init_items init) = Some (Order.items doc) /\
  Order.totalAmount doc = init_totalAmount init /\
  Order.shippingAddress doc = default Address.empty (init_shippingAddress init) /\
  Order.paymentStatus doc = init_paymentStatus init /\
  (parse_paymentMethod <$> init_paymentMethod init) = Some (Some (Order.paymentMethod doc)) /\
  Order.status doc = "Processing" /\
  Order.createdAt doc = Date_now env.
Proof.
  unfold new_Order.
  destruct (String.eqb _ _); [discriminate|].
  destruct (cast_items _) as [items|]; [|discriminate].
  destruct (PrimFloat.is_nan _); [discriminate|].
  destruct (init_paymentMethod init) as [pm|]; [|discriminate].
  destruct (parse_paymentMethod pm) as [method|] eqn:Hp; [|discriminate].
  intros [= <-]. simpl. rewrite Hp. repeat split; reflexivity.
Qed.

(** Validation passes for a named user, line items that can be cast, a total
    that is a Number, and one of the two payment methods. *)
Lemma new_Order_valid env init :
  init_userEmail init <> "" ->
  is_Some (cast_items (init_items init)) ->
  PrimFloat.is_nan (init_totalAmount init) = false ->
  is_Some (init_paymentMethod init ≫= parse_paymentMethod) ->
  exists doc, new_Order env init = inr doc.
Proof.
  intros Hemail [items Hitems] Htotal [method Hm]. unfold new_Order.
  destruct (String.eqb _ _) eqn:He; [now apply String.eqb_eq in He|].
  rewrite Hitems, Htotal.
  destruct (init_paymentMethod init) as [pm|]; simpl in Hm; [|discriminate].
  rewrite Hm. eauto.
Qed.

(** A cast keeps the numbers of a line item. *)
Lemma cast_item_numbers (it it' : Item.t) :
  cast_item it = Some it' ->
  Item.quantity it' = Item.quantity it /\ Item.price it' = Item.price it /\
  Item.name it' = Item.name it /\ Item.image it' = Item.image it /\
  Item.productId it' = (Item.productId it ≫= castObjectId).
Proof.
  unfold cast_item. destruct (negb _); [discriminate|].
  destruct (Item.productId it) as [s|] eqn:Hid; simpl.
  - destruct (castObjectId s); [|discriminate]. now intros [= <-].
  - intros [= <-]. now rewrite Hid.
Qed.

Lemma cast_items_numbers (items items' : list Item.t) :
  cast_items items = Some items' ->
  map Item.quantity items' = map Item.quantity items /\
  map Item.price items' = map Item.price items.
Proof.
  revert items'. induction items as [|it items IH]; simpl; intros items'.
  - now intros [= <-].
  - destruct (cast_item it) as [it'|] eqn:Hit; [|discriminate].
    destruct (cast_items items) as [rest'|]; [|discriminate].
    intros [= <-]. simpl.
    apply cast_item_numbers in Hit as (Hq & Hp & _).
    destruct (IH rest' eq_refl) as [IHq IHp]. now rewrite Hq, Hp, IHq, IHp.
Qed.

Lemma cast_items_acceptable (items : list Item.t) :
  Forall item_acceptable items -> is_Some (cast_items items).
Proof.
  induction 1 as [|it items (Hq & Hp & Hid) _ [rest' IH]]; simpl; [eauto|].
  assert (Hit : is_Some (cast_item it)).
  { unfold cast_item, item_castable. rewrite Hq, Hp. simpl.
    destruct (Item.productId it) as [s|]; [|eauto].
    destruct Hid as [oid ->]. eauto. }
  destruct Hit as [it' ->]. rewrite IH. eauto.
Qed.

Lemma fold_left_sum_from (items : list Item.t) (acc : float) :
  fold_left (fun sum item => (sum + Item.price item * Item.quantity item)%float) items acc
  = sum_from acc (map line_total items).
Proof.
  revert acc. induction items as [|it items IH]; intros acc; simpl; [reflexivity|].
  rewrite IH. unfold line_total. now rewrite (float_mul_comm (Item.price it)).
Qed.

Lemma reduce_total_spec (items : list Item.t) : reduce_total items = spec_totalAmount items.
Proof. apply fold_left_sum_from. Qed.

Lemma items_missing_Some_cons (items : list Item.t) :
  items <> [] -> items_missing (Some items) = false.
Proof. now destruct items. Qed.

(** A call that passes validation persists its order and answers 200. *)
Lemma placeorder_succeeds env user items address pm rest w :
  items <> [] ->
  pm = Some "COD" \/ pm = Some "ONLINE" ->
  email user <> "" ->
  Forall item_acceptable items ->
  PrimFloat.is_nan (spec_totalAmount items) = false ->
  orders (db w) !! new_ObjectId env = None ->
  exists o,
    placeorder env user (PlaceOrderBody.mk (Some items) address pm rest) w
    = (Normal (placeorder_ok pm o), with_orders (<[new_ObjectId env := o]> (orders (db w))) w) /\
    Order._id o = new_ObjectId env /\
    Order.userEmail o = email user /\
    cast_items items = Some (Order.items o) /\
    Order.totalAmount o = spec_totalAmount items /\
    Order.paymentStatus o = PENDING /\
    (parse_paymentMethod <$> pm) = Some (Some (Order.paymentMethod o)).
Proof.
  intros Hitems Hpm Hemail Hcast Hnan Hfresh.
  rewrite placeorder_paths.
  cbn [PlaceOrderBody.items PlaceOrderBody.paymentMethod].
  rewrite (items_missing_Some_cons _ Hitems).
  assert (Htruthy : truthy_str pm = true) by (now destruct Hpm as [-> | ->]).
  rewrite Htruthy. cbn [negb].
  destruct (new_Order_valid env
              (placeorder_init user (PlaceOrderBody.mk (Some items) address pm rest)))
    as [doc Hdoc]; simpl; try assumption.
  { now apply cast_items_acceptable. }
  { now rewrite reduce_total_spec. }
  { destruct Hpm as [-> | ->]; simpl; eauto. }
  rewrite Hdoc.
  apply new_Order_inr in Hdoc as (Hid & He & Hi & Ht & _ & Hs & Hm & _).
  simpl in *. rewrite Hid, Hfresh. exists doc.
  rewrite reduce_total_spec in Ht. now repeat split.
Qed.

(** C1. For every call of [/placeorder] with a non-empty item list and a
    payment method present, either nothing is persisted (the call fails with
    status 500 and the database is as before), or exactly one new order is
    persisted; its [totalAmount] is the sum over the supplied line items of
    quantity times unit price, its [paymentStatus] is [PENDING] whatever the
    payment method, and it is the order the response returns. The order is
    persisted whenever the request passes validation: a caller with an
    email, line items whose numbers are Numbers and whose product ids, where
    given, are ids, a total that is a Number, the method COD or ONLINE, and
    a fresh [_id]. Nothing else in the request body (such as a total
    supplied by the client) has any influence on the outcome. *)
Theorem placeorder_total_and_status env user items address pm rest w :
  items <> [] ->
  truthy_str pm = true ->
  let res := placeorder env user (PlaceOrderBody.mk (Some items) address pm rest) w in
  ((exists o,
       fst res = Normal (placeorder_ok pm o) /\
       orders (db w) !! Order._id o = None /\
       orders (db (snd res)) = <[Order._id o := o]> (orders (db w)) /\
       cast_items items = Some (Order.items o) /\
       Order.totalAmount o = spec_totalAmount items /\
       Order.paymentStatus o = PENDING /\
       (parse_paymentMethod <$> pm) = Some (Some (Order.paymentMethod o)))
   \/ (exists msg, fst res = Normal (fail_json 500 msg) /\ db (snd res) = db w))
  /\ (email user <> "" ->
      Forall item_acceptable items ->
      PrimFloat.is_nan (spec_totalAmount items) = false ->
      orders (db w) !! new_ObjectId env = None ->
      forall method,
        pm = Some (match method with COD => "COD" | ONLINE => "ONLINE" end) ->
        exists o,
          fst res = Normal (placeorder_ok pm o) /\
          orders (db (snd res)) !! new_ObjectId env = Some o /\
          (forall k, k <> new_ObjectId env ->
                     orders (db (snd res)) !! k = orders (db w) !! k) /\
          Order.userEmail o = email user /\
          map Item.quantity (Order.items o) = map Item.quantity items /\
          map Item.price (Order.items o) = map Item.price items /\
          Order.totalAmount o = spec_totalAmount items /\
          Order.paymentStatus o = PENDING /\
          Order.paymentMethod o = method)
  /\ (forall rest',
       placeorder env user (PlaceOrderBody.mk (Some items) address pm rest') w = res).
Proof.
  intros Hitems Hpm res. subst res. split; [|split].
  - rewrite placeorder_paths.
    cbn [PlaceOrderBody.items PlaceOrderBody.paymentMethod].
    rewrite (items_missing_Some_cons _ Hitems), Hpm. cbn [negb].
    destruct (new_Order env _) as [e|doc] eqn:Hnew.
    + right. exists (err_message e). now split.
    + destruct (orders (db w) !! Order._id doc) eqn:Hfresh.
      * right. eexists. now split.
      * left. exists doc.
        apply new_Order_inr in Hnew as (_ & _ & Hi & Ht & _ & Hs & Hm & _).
        simpl in *. rewrite reduce_total_spec in Ht. now repeat split.
  - intros Hemail Hcast Hnan Hfresh method Hmethod.
    destruct (placeorder_succeeds env user items address pm rest w)
      as (o & Hres & _ & He & Hi & Ht & Hs & Hm); try assumption.
    { destruct method; [now left|now right]. }
    exists o. rewrite Hres. cbn [fst snd]. simpl.
    apply cast_items_numbers in Hi as [Hq Hp].
    split; [reflexivity|]. split; [apply lookup_insert_eq|].
    split; [intros k Hk; now apply lookup_insert_ne|].
    repeat (split; [assumption|]).
    subst pm. destruct method; simpl in Hm; now injection Hm as <-.
  - intros rest'. now rewrite !placeorder_paths.
Qed.

(** The spec's scenario, a COD order of 2 at 100 and 1 at 50 whose body also
    carries a client-side total of 1: the order is stored, its total is 250
    and its status [PENDING]. *)
Lemma placeorder_total_and_status_witness :
  let res := placeorder Sample.env Sample.alice Sample.cod_body Sample.empty_world in
  exists o,
    fst res = Normal (placeorder_ok (Some "COD") o) /\
    orders (db (snd res)) !! Sample.id1 = Some o /\
    Order.totalAmount o = 250%float /\
    Order.paymentStatus o = PENDING /\
    Order.paymentMethod o = COD.
Proof.
  intros res.
  destruct (placeorder_total_and_status Sample.env Sample.alice
              [Sample.item 2 100; Sample.item 1 50]
              (Some (Sample.address_with (Some "9876543210")))
              (Some "COD") [("totalAmount", JNum 1%float)] Sample.empty_world)
    as (_ & Hstored & _); [discriminate|reflexivity|].
  destruct (Hstored ltac:(discriminate)
              ltac:(repeat constructor) eq_refl eq_refl COD eq_refl)
    as (o & Hres & Hsome & _ & _ & _ & _ & Htotal & Hstatus & Hmethod).
  exists o. repeat split; assumption.
Defined.

(** A product id that is not the text of an [ObjectId] fails the cast of the
    line item: nothing is stored and the answer is 500. A well-formed one is
    stored in its canonical form, whether or not any product has it. *)
Example placeorder_casts_productId :
  let line id := Item.mk (Some id) (Some "pen") 1%float 10%float None in
  let body id := PlaceOrderBody.mk (Some [line id]) None (Some "COD") [] in
  answered (fst (placeorder Sample.env Sample.alice (body "7001") Sample.empty_world)) 500 /\
  db (snd (placeorder Sample.env Sample.alice (body "7001") Sample.empty_world))
  = db Sample.empty_world /\
  (Order.items <$>
     orders (db (snd (placeorder Sample.env Sample.alice
                        (body "64B7F0C2A1B2C3D4E5F60799") Sample.empty_world))) !! Sample.id1)
  = Some [line "64b7f0c2a1b2c3d4e5f60799"].
Proof. repeat split. now eexists. Qed.

(** C9. [/placeorder] never consults the Product collection: with any other
    catalogue in the database the answer and the stored orders are the same.
    The total is computed from the [price] and [quantity] the client sent,
    and no sign check is made on them: every order that passes validation
    is persisted with the sum of quantity times price over its line items
    as they were sent, be it zero or negative. *)
Theorem placeorder_trusts_client_prices env user body w :
  (forall catalogue,
      let res := placeorder env user body w in
      let res' := placeorder env user body (with_products catalogue w) in
      fst res' = fst res /\
      orders (db (snd res')) = orders (db (snd res)) /\
      products (db (snd res')) = catalogue) /\
  (forall items,
      PlaceOrderBody.items body = Some items ->
      items <> [] ->
      PlaceOrderBody.paymentMethod body = Some "COD" \/
      PlaceOrderBody.paymentMethod body = Some "ONLINE" ->
      email user <> "" ->
      Forall item_acceptable items ->
      PrimFloat.is_nan (spec_totalAmount items) = false ->
      orders (db w) !! new_ObjectId env = None ->
      exists o,
        fst (placeorder env user body w)
        = Normal (placeorder_ok (PlaceOrderBody.paymentMethod body) o) /\
        orders (db (snd (placeorder env user body w))) !! new_ObjectId env = Some o /\
        map Item.quantity (Order.items o) = map Item.quantity items /\
        map Item.price (Order.items o) = map Item.price items /\
        Order.totalAmount o = spec_totalAmount items).
Proof.
  split.
  - intros catalogue res res'. subst res res'. rewrite !placeorder_paths.
    destruct (items_missing _); [now repeat split|].
    destruct (negb (truthy_str _)); [now repeat split|].
    destruct (new_Order env _) as [e|doc]; [now repeat split|].
    simpl. destruct (orders (db w) !! Order._id doc); now repeat split.
  - intros items Hbody Hitems Hpm Hemail Hcast Hnan Hfresh.
    destruct body as [its address pm rest]. simpl in *. subst its.
    destruct (placeorder_succeeds env user items address pm rest w)
      as (o & Hres & _ & _ & Hi & Ht & _); try assumption.
    apply cast_items_numbers in Hi as [Hq Hp].
    exists o. rewrite Hres. simpl. rewrite lookup_insert_eq. now repeat split.
Qed.

(** An order with a negative quantity, a zero quantity and a negative price
    is accepted and stored with the total -250, and the catalogue plays no
    part in it. *)
Lemma placeorder_trusts_client_prices_witness :
  let body := PlaceOrderBody.mk (Some Sample.odd_items) None (Some "ONLINE") [] in
  (exists o,
      fst (placeorder Sample.env Sample.alice body Sample.empty_world)
      = Normal (placeorder_ok (Some "ONLINE") o) /\
      orders (db (snd (placeorder Sample.env Sample.alice body Sample.empty_world)))
        !! Sample.id1 = Some o /\
      Order.totalAmount o = (-250)%float) /\
  fst (placeorder Sample.env Sample.alice body
         (with_products [Sample.product] Sample.empty_world))
  = fst (placeorder Sample.env Sample.alice body Sample.empty_world).
Proof.
  intros body.
  destruct (placeorder_trusts_client_prices Sample.env Sample.alice body Sample.empty_world)
    as [Hcat Hok].
  split.
  - destruct (Hok Sample.odd_items eq_refl ltac:(discriminate) (or_intror eq_refl)
                ltac:(discriminate) ltac:(repeat constructor) eq_refl eq_refl)
      as (o & Hres & Hdb & _ & _ & Ht).
    exists o. repeat split; [exact Hres|exact Hdb|]. rewrite Ht. reflexivity.
  - apply (Hcat [Sample.product]).
Defined.

(** ** [/create-cashfree-order] *)

Lemma opt_chain_get_prop (v : JVal) (k : string) : opt_chain v k = get_prop v k.
Proof. now destruct v. Qed.

Lemma phone_invalid_ten_chars (phone : option string) :
  phone_invalid phone = negb (ten_chars phone).
Proof.
  destruct phone as [p|]; simpl; [|reflexivity].
  destruct p; reflexivity.
Qed.

(** The handler, one outcome per path through its body. *)
Lemma create_cashfree_order_paths env user body w :
  create_cashfree_order env user body w =
  match castObjectId (OrderIdBody.orderId body) with
  | None => cashfree_failed (CastError (OrderIdBody.orderId body)) w
  | Some oid =>
    match orders (db w) !! oid with
    | None => (Normal (fail_json 404 "Order not found"), w)
    | Some order =>
      if negb (bool_decide (Order.paymentMethod order = ONLINE))
      then (Normal (fail_json 400 "Invalid payment method"), w)
      else if negb (ten_chars (Address.phone (Order.shippingAddress order)))
      then (Normal (fail_json 400 "Invalid phone number"), w)
      else
        match pgAxios env (checkout_call env order) with
        | Rejected e => cashfree_failed e (with_call (checkout_call env order) w)
        | Fulfilled r =>
          (Normal (if truthy (get_prop (ax_data r) "payment_session_id")
                   then session_created (ax_data r)
                   else session_missing (ax_data r)),
           with_call (checkout_call env order) w)
        end
    end
  end.
Proof.
  unfold create_cashfree_order, Order_findById. eff_unfold.
  destruct (castObjectId _) as [oid|]; [|reflexivity].
  destruct w as [d calls logs]. simpl.
  destruct (orders d !! oid) as [order|]; [|reflexivity].
  destruct (negb (bool_decide _)); [reflexivity|].
  rewrite phone_invalid_ten_chars.
  destruct (negb (ten_chars _)); [reflexivity|].
  fold (checkout_call env order).
  destruct (pgAxios env (checkout_call env order)) as [r|e]; [|reflexivity].
  rewrite opt_chain_get_prop.
  destruct (truthy _); reflexivity.
Qed.

(** The route has no write to the database on any of its paths. *)
Lemma create_cashfree_order_db env user body w :
  db (snd (create_cashfree_order env user body w)) = db w.
Proof.
  rewrite create_cashfree_order_paths.
  destruct (castObjectId _) as [oid|]; [|reflexivity].
  destruct (orders (db w) !! oid) as [o|]; [|reflexivity].
  destruct (negb (bool_decide _)); [reflexivity|].
  destruct (negb (ten_chars _)); [reflexivity|].
  now destruct (pgAxios env (checkout_call env o)).
Qed.




(** C6, as the code has it. For a stored ONLINE order the route looks at the
    [length] of the phone only, which JavaScript counts in UTF-16 code
    units: a phone that is absent, empty or not ten code units long is
    answered with 400 before any gateway call, and every phone of ten code
    units, digits or not, goes to the gateway. *)
Theorem create_cashfree_order_phone_length env user body w oid o :
  castObjectId (OrderIdBody.orderId body) = Some oid ->
  orders (db w) !! oid = Some o ->
  Order.paymentMethod o = ONLINE ->
  let res := create_cashfree_order env user body w in
  if ten_chars (Address.phone (Order.shippingAddress o))
  then gateway_calls (snd res) = (gateway_calls w ++ [checkout_call env o])%list
  else res = (Normal (fail_json 400 "Invalid phone number"), w).
Proof.
  intros Hcast Hsome Hm res. subst res.
  rewrite create_cashfree_order_paths, Hcast, Hsome, bool_decide_eq_true_2 by assumption.
  simpl. destruct (ten_chars _); simpl; [|reflexivity].
  now destruct (pgAxios env (checkout_call env o)).
Qed.

(** The spec's scenario: the phone "12345" is refused and the gateway is not
    called. The length is the one JavaScript sees: five times the letter
    e-acute, ten bytes of UTF-8 but five code units, is refused as well,
    and ten times that letter, twenty bytes but ten code units, goes to the
    gateway. *)
Lemma create_cashfree_order_phone_length_witness :
  let stored phone := Sample.order_with Sample.id1 ONLINE (Some phone) PENDING in
  let call phone :=
    create_cashfree_order Sample.env Sample.alice (OrderIdBody.mk Sample.id1 [])
      (Sample.world_of [stored phone]) in
  let five := Sample.times 5 Sample.e_acute in
  let ten := Sample.times 10 Sample.e_acute in
  call "12345" = (Normal (fail_json 400 "Invalid phone number"),
                  Sample.world_of [stored "12345"]) /\
  (String.length five = 10%nat /\
   call five = (Normal (fail_json 400 "Invalid phone number"), Sample.world_of [stored five])) /\
  (String.length ten = 20%nat /\
   gateway_calls (snd (call ten)) = [checkout_call Sample.env (stored ten)]).
Proof.
  intros stored call five ten. split; [|split; (split; [reflexivity|])].
  - apply (create_cashfree_order_phone_length Sample.env Sample.alice
             (OrderIdBody.mk Sample.id1 []) (Sample.world_of [stored "12345"]) Sample.id1
             (stored "12345")); reflexivity.
  - apply (create_cashfree_order_phone_length Sample.env Sample.alice
             (OrderIdBody.mk Sample.id1 []) (Sample.world_of [stored five]) Sample.id1
             (stored five)); reflexivity.
  - apply (create_cashfree_order_phone_length Sample.env Sample.alice
             (OrderIdBody.mk Sample.id1 []) (Sample.world_of [stored ten]) Sample.id1
             (stored ten)); reflexivity.
Defined.

(** C6 as stated fails: a phone of ten letters is not ten digits, and the
    route sends it to the gateway and returns the session. *)
Lemma create_cashfree_order_letters_reach_gateway :
  let o := Sample.order_with Sample.id1 ONLINE (Some "abcdefghij") PENDING in
  let res := create_cashfree_order Sample.env Sample.alice (OrderIdBody.mk Sample.id1 [])
               (Sample.world_of [o]) in
  ten_digits (Some "abcdefghij") = false /\
  gateway_calls (snd res) = [checkout_call Sample.env o] /\
  customer_phone (cashfree_payload Sample.env o) = "abcdefghij" /\
  answered (fst res) 200.
Proof. repeat split. now eexists. Qed.

(** C7. [/create-cashfree-order] never writes to the database: whatever the
    outcome, the database after the call is the database before it. When the
    gateway answers with a session token, the route returns that token and
    the gateway's order id. *)
Theorem create_cashfree_order_leaves_orders env user body w :
  let res := create_cashfree_order env user body w in
  db (snd res) = db w /\
  (forall oid o r,
      castObjectId (OrderIdBody.orderId body) = Some oid ->
      orders (db w) !! oid = Some o ->
      Order.paymentMethod o = ONLINE ->
      ten_chars (Address.phone (Order.shippingAddress o)) = true ->
      pgAxios env (checkout_call env o) = Fulfilled r ->
      truthy (get_prop (ax_data r) "payment_session_id") = true ->
      fst res = Normal (res_json
                          [("success", BBool true);
                           ("payment_session_id", BVal (get_prop (ax_data r) "payment_session_id"));
                           ("order_id", BVal (get_prop (ax_data r) "order_id"))])) /\
  (forall r, fst res = Normal r -> status_code r = 200 ->
             exists data, json r = json (session_created data) /\
                          truthy (get_prop data "payment_session_id") = true).
Proof.
  intros res. subst res. split; [apply create_cashfree_order_db|].
  rewrite create_cashfree_order_paths. split.
  - intros oid o r Hcast Hsome Hm Hp Hgw Htoken.
    now rewrite Hcast, Hsome, Hp, Hgw, Htoken, bool_decide_eq_true_2 by assumption.
  - intros r.
    destruct (castObjectId _) as [oid|]; [|now intros [= <-]].
    destruct (orders (db w) !! oid) as [o|]; [|now intros [= <-]].
    destruct (negb (bool_decide _)); [now intros [= <-]|].
    destruct (negb (ten_chars _)); [now intros [= <-]|].
    destruct (pgAxios env (checkout_call env o)) as [ar|e]; [|now intros [= <-]].
    simpl. destruct (truthy _) eqn:Htoken; intros [= <-]; [|discriminate].
    intros _. now exists (ax_data ar).
Qed.

(** A session is opened for the sample order: the token and the gateway's
    order id come back, and the order is still pending. *)
Lemma create_cashfree_order_leaves_orders_witness :
  let res := create_cashfree_order Sample.env Sample.alice (OrderIdBody.mk Sample.id1 [])
               Sample.online_world in
  db (snd res) = db Sample.online_world /\
  fst res = Normal (res_json [("success", BBool true);
                              ("payment_session_id", BVal (JStr "session_abc"));
                              ("order_id", BVal (JStr Sample.id1))]).
Proof.
  intros res.
  destruct (create_cashfree_order_leaves_orders Sample.env Sample.alice
              (OrderIdBody.mk Sample.id1 []) Sample.online_world) as (Hdb & Hok & _).
  split; [exact Hdb|].
  now apply (Hok Sample.id1 (Sample.order_with Sample.id1 ONLINE (Some "9876543210") PENDING)
               (mkAxiosResponse 200
                  (JObj [("payment_session_id", JStr "session_abc");
                         ("order_id", JStr Sample.id1);
                         ("order_status", JStr "ACTIVE")]))).
Defined.

(** ** [/verify-payment] *)

Lemma Order_findByIdAndUpdate_paths id u w :
  Order_findByIdAndUpdate id u w =
  match castObjectId id with
  | None => (Thrown (CastError id), w)
  | Some oid => (Normal tt, with_orders (alter (apply_update u) oid (orders (db w))) w)
  end.
Proof.
  unfold Order_findByIdAndUpdate. destruct (castObjectId id); reflexivity.
Qed.

(** The handler, one outcome per path through its body. *)
Lemma verify_payment_paths env user body w :
  let orderId := OrderIdBody.orderId body in
  let w1 := with_call (status_call orderId) w in
  verify_payment env user body w =
  match pgAxios env (status_call orderId) with
  | Rejected e => verify_failed e w1
  | Fulfilled r =>
    if is_nullish (ax_data r)
    then verify_failed
           (TypeError "Cannot read properties of undefined (reading 'order_status')") w1
    else if strict_eq_str (get_prop (ax_data r) "order_status") "PAID"
    then match castObjectId orderId with
         | None => verify_failed (CastError orderId) w1
         | Some oid =>
           (Normal (verify_answer true),
            with_orders (alter (apply_update paid_update) oid (orders (db w))) w1)
         end
    else (Normal (verify_answer false), w1)
  end.
Proof.
  intros orderId w1. subst orderId w1.
  unfold verify_payment, read_order_status. eff_unfold.
  fold (status_call (OrderIdBody.orderId body)).
  destruct (pgAxios env (status_call _)) as [r|e]; [|reflexivity].
  destruct (is_nullish (ax_data r)); [reflexivity|].
  destruct (strict_eq_str _ _); [|reflexivity].
  rewrite Order_findByIdAndUpdate_paths.
  destruct (castObjectId _); reflexivity.
Qed.

Lemma gateway_paid_true env orderId :
  gateway_paid env orderId = true ->
  exists r, pgAxios env (status_call orderId) = Fulfilled r /\
            is_nullish (ax_data r) = false /\
            strict_eq_str (get_prop (ax_data r) "order_status") "PAID" = true.
Proof.
  unfold gateway_paid, status_call.
  destruct (pgAxios env _) as [r|e]; [|discriminate].
  intros H. exists r. repeat split; [|exact H].
  destruct (ax_data r); try reflexivity; discriminate.
Qed.

(** What the route does when the gateway reports [PAID]. *)
Lemma verify_payment_paid env user body w :
  gateway_paid env (OrderIdBody.orderId body) = true ->
  verify_payment env user body w =
  let w1 := with_call (status_call (OrderIdBody.orderId body)) w in
  match castObjectId (OrderIdBody.orderId body) with
  | None => verify_failed (CastError (OrderIdBody.orderId body)) w1
  | Some oid =>
    (Normal (verify_answer true),
     with_orders (alter (apply_update paid_update) oid (orders (db w))) w1)
  end.
Proof.
  intros Hpaid. apply gateway_paid_true in Hpaid as (r & Hgw & Hnn & Hst).
  rewrite verify_payment_paths. simpl. now rewrite Hgw, Hnn, Hst.
Qed.

(** What it does when the gateway reports anything else, or fails. *)
Lemma verify_payment_unpaid env user body w :
  gateway_paid env (OrderIdBody.orderId body) = false ->
  confirmed (fst (verify_payment env user body w)) = Some false /\
  db (snd (verify_payment env user body w)) = db w.
Proof.
  unfold gateway_paid. fold (status_call (OrderIdBody.orderId body)).
  rewrite verify_payment_paths. simpl.
  destruct (pgAxios env (status_call _)) as [r|e]; [|now split].
  intros Hst. rewrite Hst.
  destruct (is_nullish (ax_data r)); now split.
Qed.



Lemma alter_paid_update_idem (oid : string) (m : gmap string Order.t) :
  alter (apply_update paid_update) oid (alter (apply_update paid_update) oid m)
  = alter (apply_update paid_update) oid m.
Proof.
  apply map_eq. intros k.
  destruct (decide (oid = k)) as [->|Hne].
  - rewrite !lookup_alter_eq. now destruct (m !! k).
  - now rewrite !lookup_alter_ne.
Qed.

(** C3. Once the gateway reports [PAID] for a stored order, verifying it
    twice in a row answers [success: true] both times; after the second
    call the order is [PAID], the second call has changed nothing in the
    database, and neither call has thrown (nothing was written to the error
    log). *)
Theorem verify_payment_idempotent env1 env2 user1 user2 body w oid o :
  gateway_paid env1 (OrderIdBody.orderId body) = true ->
  gateway_paid env2 (OrderIdBody.orderId body) = true ->
  castObjectId (OrderIdBody.orderId body) = Some oid ->
  orders (db w) !! oid = Some o ->
  let res1 := verify_payment env1 user1 body w in
  let res2 := verify_payment env2 user2 body (snd res1) in
  fst res1 = Normal (res_json [("success", BBool true)]) /\
  fst res2 = Normal (res_json [("success", BBool true)]) /\
  (exists o', orders (db (snd res2)) !! oid = Some o' /\ Order.paymentStatus o' = PAID) /\
  db (snd res2) = db (snd res1) /\
  console (snd res2) = console w.
Proof.
  intros Hpaid1 Hpaid2 Hcast Hsome res1 res2. subst res1 res2.
  rewrite (verify_payment_paid env1) by assumption.
  rewrite Hcast. cbn [fst snd].
  rewrite (verify_payment_paid env2) by assumption.
  rewrite Hcast. cbn [fst snd].
  split; [reflexivity|]. split; [reflexivity|].
  simpl. rewrite alter_paid_update_idem.
  split; [|split; [reflexivity|reflexivity]].
  exists (apply_update paid_update o). split; [|reflexivity].
  now rewrite lookup_alter_eq, Hsome.
Qed.

(** Two checks of the sample order, by two different callers. *)
Lemma verify_payment_idempotent_witness :
  let req := OrderIdBody.mk Sample.id1 [] in
  let res1 := verify_payment Sample.env Sample.alice req Sample.online_world in
  let res2 := verify_payment Sample.env Sample.bob req (snd res1) in
  confirmed (fst res1) = Some true /\
  confirmed (fst res2) = Some true /\
  db (snd res2) = db (snd res1).
Proof.
  intros req res1 res2.
  destruct (verify_payment_idempotent Sample.env Sample.env Sample.alice Sample.bob req
              Sample.online_world Sample.id1
              (Sample.order_with Sample.id1 ONLINE (Some "9876543210") PENDING)
              eq_refl eq_refl eq_refl eq_refl) as (H1 & H2 & _ & Hdb & _).
  subst res1 res2. rewrite H2. split; [now rewrite H1|]. split; [reflexivity|exact Hdb].
Defined.

(** C8. When the gateway reports [PAID] for a well-formed [orderId] under
    which no order is stored, [/verify-payment] still answers
    [success: true]: the update finds nothing and changes nothing, no error
    is raised or logged, and the answer is the one the caller would get
    with any other content of the database, a stored order included. *)
Theorem verify_payment_unknown_order env user body w oid :
  gateway_paid env (OrderIdBody.orderId body) = true ->
  castObjectId (OrderIdBody.orderId body) = Some oid ->
  orders (db w) !! oid = None ->
  let res := verify_payment env user body w in
  fst res = Normal (res_json [("success", BBool true)]) /\
  db (snd res) = db w /\
  console (snd res) = console w /\
  (forall w', fst (verify_payment env user body w') = fst res).
Proof.
  intros Hpaid Hcast Hnone res. subst res.
  rewrite verify_payment_paid, Hcast by assumption. cbn [fst snd].
  split; [reflexivity|]. split; [|split; [reflexivity|]].
  - destruct w as [[m ps] calls logs]. simpl in *. unfold set_orders. simpl.
    f_equal. apply map_eq. intros k. rewrite lookup_alter.
    destruct (decide (oid = k)) as [->|Hne]; [now rewrite Hnone|reflexivity].
  - intros w'. now rewrite verify_payment_paid, Hcast by assumption.
Qed.

(** The sample gateway reports [PAID] for [id1]; with no such order stored
    the caller is told [success: true], exactly as when it is stored. *)
Lemma verify_payment_unknown_order_witness :
  let req := OrderIdBody.mk Sample.id1 [] in
  let res := verify_payment Sample.env Sample.alice req Sample.empty_world in
  fst res = Normal (res_json [("success", BBool true)]) /\
  db (snd res) = db Sample.empty_world /\
  fst (verify_payment Sample.env Sample.alice req Sample.online_world) = fst res.
Proof.
  intros req res.
  destruct (verify_payment_unknown_order Sample.env Sample.alice req Sample.empty_world
              Sample.id1 eq_refl eq_refl eq_refl) as (Hres & Hdb & _ & Hsame).
  split; [exact Hres|]. split; [exact Hdb|]. apply Hsame.
Defined.


(** ** The payment status over the life of the server *)

Lemma admin_update_order_paths env user id body w :
  admin_update_order env user id body w =
  match castObjectId id with
  | None => (Normal (fail_json 500 (err_message (CastError id))), w)
  | Some oid =>
    (Normal (res_json [("success", BBool true)]),
     with_orders
       (alter (apply_update (mkOrderUpdate None (StatusBody.status body))) oid (orders (db w))) w)
  end.
Proof.
  unfold admin_update_order. eff_unfold. rewrite Order_findByIdAndUpdate_paths.
  destruct (castObjectId id); reflexivity.
Qed.

Lemma order_step_same env op oid (x : option Order.t) : order_step env op oid x x.
Proof. destruct x; simpl; auto. Qed.

Lemma route_refused env op w :
  match op with
  | PlaceOrder auth _ | CreateCashfreeOrder auth _ | VerifyPayment auth _
  | AdminUpdateOrder auth _ _ => caller env auth = None
  end ->
  snd (route env op w) = w.
Proof.
  destruct op as [auth b|auth b|auth b|auth id b]; intros Hnone; simpl;
    edestruct (authenticateToken_refused env auth) as (r & -> & _); eauto.
Qed.

Lemma route_order_step env op w oid :
  order_step env op oid (orders (db w) !! oid) (orders (db (snd (route env op w))) !! oid).
Proof.
  destruct op as [auth body|auth body|auth body|auth id body];
    (destruct (caller env auth) as [user|] eqn:Hcaller;
     [|rewrite route_refused by exact Hcaller; apply order_step_same]);
    simpl; rewrite (authenticateToken_caller _ _ user) by exact Hcaller.
  - (* /placeorder *)
    rewrite placeorder_paths.
    destruct (items_missing _); [apply order_step_same|].
    destruct (negb (truthy_str _)); [apply order_step_same|].
    destruct (new_Order env _) as [e|doc] eqn:Hnew; [apply order_step_same|].
    destruct (orders (db w) !! Order._id doc) eqn:Hfresh; [apply order_step_same|].
    simpl. destruct (decide (Order._id doc = oid)) as [<-|Hne].
    + rewrite Hfresh, lookup_insert_eq. simpl.
      apply new_Order_inr in Hnew as (_ & _ & _ & _ & _ & Hps & _).
      split; [exact Hps|eauto].
    + rewrite lookup_insert_ne by exact Hne. apply order_step_same.
  - (* /create-cashfree-order *)
    rewrite create_cashfree_order_db. apply order_step_same.
  - (* /verify-payment *)
    destruct (gateway_paid env (OrderIdBody.orderId body)) eqn:Hpaid.
    + rewrite verify_payment_paid by exact Hpaid.
      destruct (castObjectId _) as [oid'|] eqn:Hcast; [|apply order_step_same].
      simpl. destruct (decide (oid' = oid)) as [->|Hne].
      * rewrite lookup_alter_eq.
        destruct (orders (db w) !! oid) as [o|]; simpl; [|exact I].
        destruct (Order.paymentStatus o) eqn:Hps; [right|now left].
        repeat split. exists auth, body. rewrite Hcaller. eauto.
      * rewrite lookup_alter_ne by exact Hne. apply order_step_same.
    + destruct (verify_payment_unpaid env user body w Hpaid) as [_ ->].
      apply order_step_same.
  - (* /admin/orders/:id *)
    unfold requireAdmin. destruct (negb _); [apply order_step_same|].
    rewrite admin_update_order_paths.
    destruct (castObjectId id) as [oid'|]; [|apply order_step_same].
    simpl. destruct (decide (oid' = oid)) as [->|Hne].
    + rewrite lookup_alter_eq.
      destruct (orders (db w) !! oid) as [o|]; simpl; [|exact I].
      left. unfold apply_update. simpl. now destruct (StatusBody.status body).
    + rewrite lookup_alter_ne by exact Hne. apply order_step_same.
Qed.

Lemma serve_keeps_paid reqs w oid o :
  orders (db w) !! oid = Some o ->
  Order.paymentStatus o = PAID ->
  exists o', orders (db (serve reqs w)) !! oid = Some o' /\ Order.paymentStatus o' = PAID.
Proof.
  revert w o. induction reqs as [|[env op] reqs IH]; intros w o Hsome Hpaid; simpl.
  - eauto.
  - pose proof (route_order_step env op w oid) as Hstep.
    rewrite Hsome in Hstep.
    destruct (orders (db (snd (route env op w))) !! oid) as [o'|] eqn:Hnext;
      simpl in Hstep; [|contradiction].
    apply (IH _ o' Hnext).
    destruct Hstep as [Heq | (Hpending & _)]; congruence.
Qed.

(** C4. Over every sequence of requests to the four order routes, served
    under any environments, an order that is [PAID] stays stored and stays
    [PAID]. A single request turns a [PENDING] order into a [PAID] one only
    if it is a [/verify-payment] request for that order, made by an
    authenticated caller, for which the gateway reported [PAID]. And an
    order that appears in the database appears as [PENDING]. *)
Theorem paymentStatus_only_moves_to_paid :
  (forall reqs w oid o,
      orders (db w) !! oid = Some o ->
      Order.paymentStatus o = PAID ->
      exists o', orders (db (serve reqs w)) !! oid = Some o' /\
                 Order.paymentStatus o' = PAID) /\
  (forall env op w oid o o',
      orders (db w) !! oid = Some o ->
      Order.paymentStatus o = PENDING ->
      orders (db (snd (route env op w))) !! oid = Some o' ->
      Order.paymentStatus o' = PAID ->
      exists auth body,
        op = VerifyPayment auth body /\
        is_Some (caller env auth) /\
        castObjectId (OrderIdBody.orderId body) = Some oid /\
        gateway_paid env (OrderIdBody.orderId body) = true) /\
  (forall env op w oid o',
      orders (db w) !! oid = None ->
      orders (db (snd (route env op w))) !! oid = Some o' ->
      Order.paymentStatus o' = PENDING).
Proof.
  split; [exact serve_keeps_paid|split].
  - intros env op w oid o o' Hsome Hpending Hsome' Hpaid.
    pose proof (route_order_step env op w oid) as Hstep.
    rewrite Hsome, Hsome' in Hstep. simpl in Hstep.
    destruct Hstep as [Heq | (_ & _ & Hverify)]; [congruence|exact Hverify].
  - intros env op w oid o' Hnone Hsome'.
    pose proof (route_order_step env op w oid) as Hstep.
    rewrite Hnone, Hsome' in Hstep. simpl in Hstep. tauto.
Qed.

(** A paid order lives through an admin update, a failed check, another
    customer's order and a new payment session. *)
Lemma paymentStatus_only_moves_to_paid_witness :
  let paid := Sample.order_with Sample.id1 ONLINE (Some "9876543210") PAID in
  let down := Sample.env_with (Sample.refusing 500 JNull) Sample.id2 in
  let reqs :=
    [(Sample.env, AdminUpdateOrder (Some "Bearer tok-bob") Sample.id1
                    (StatusBody.mk (Some "Shipped") []));
     (down, VerifyPayment (Some "Bearer tok-alice") (OrderIdBody.mk Sample.id1 []));
     (Sample.env_with Sample.gateway Sample.id2,
      PlaceOrder (Some "Bearer tok-alice") Sample.cod_body);
     (Sample.env, CreateCashfreeOrder (Some "Bearer tok-bob") (OrderIdBody.mk Sample.id1 []))] in
  exists o',
    orders (db (serve reqs (Sample.world_of [paid]))) !! Sample.id1 = Some o' /\
    Order.paymentStatus o' = PAID.
Proof.
  intros paid down reqs.
  destruct paymentStatus_only_moves_to_paid as [Hkeep _].
  apply (Hkeep reqs (Sample.world_of [paid]) Sample.id1 paid); reflexivity.
Defined.

(** The whole life of an order: placed for online payment, a session
    opened, the payment verified, the parcel shipped. *)
Example order_lifecycle :
  let reqs :=
    [(Sample.env, PlaceOrder (Some "Bearer tok-alice")
                    (PlaceOrderBody.mk (Some [Sample.item 2 100; Sample.item 1 50])
                       (Some (Sample.address_with (Some "9876543210"))) (Some "ONLINE") []));
     (Sample.env, CreateCashfreeOrder (Some "Bearer tok-alice") (OrderIdBody.mk Sample.id1 []));
     (Sample.env, VerifyPayment (Some "Bearer tok-alice") (OrderIdBody.mk Sample.id1 []));
     (Sample.env, AdminUpdateOrder (Some "Bearer tok-bob") Sample.id1
                    (StatusBody.mk (Some "Shipped") []))] in
  orders (db (serve reqs Sample.empty_world)) !! Sample.id1
  = Some (Order.mk Sample.id1 "alice@example.com" [Sample.item 2 100; Sample.item 1 50]
            250%float (Sample.address_with (Some "9876543210")) ONLINE PAID "Shipped"
            1700000000000%float).
Proof. reflexivity. Qed.

(** ** Who is calling *)

(** The admin route does look at the caller: the same update is refused to
    a customer and carried out for an administrator. *)
Example admin_route_depends_on_caller :
  let update auth := AdminUpdateOrder (Some auth) Sample.id1 (StatusBody.mk (Some "Shipped") []) in
  answered (fst (route Sample.env (update "Bearer tok-alice") Sample.online_world)) 403 /\
  snd (route Sample.env (update "Bearer tok-alice") Sample.online_world) = Sample.online_world /\
  answered (fst (route Sample.env (update "Bearer tok-bob") Sample.online_world)) 200 /\
  Order.status <$> (orders (db (snd (route Sample.env (update "Bearer tok-bob")
                                       Sample.online_world))) !! Sample.id1)
  = Some "Shipped".
Proof. repeat split; now eexists. Qed.

(** C10. The payment routes never look at who is calling. For any two
    callers the token middleware lets through, whatever their identity and
    role, a [/create-cashfree-order] request for the same [orderId] against
    the same database and gateway gives the same answer and leaves the same
    world behind, and so does a [/verify-payment] request; the handlers
    themselves return the same for any two users. *)
Theorem payment_routes_ignore_caller env auth1 auth2 user1 user2 body w :
  caller env auth1 = Some user1 ->
  caller env auth2 = Some user2 ->
  route env (CreateCashfreeOrder auth1 body) w = route env (CreateCashfreeOrder auth2 body) w /\
  route env (VerifyPayment auth1 body) w = route env (VerifyPayment auth2 body) w /\
  create_cashfree_order env user1 body w = create_cashfree_order env user2 body w /\
  verify_payment env user1 body w = verify_payment env user2 body w.
Proof.
  intros H1 H2. simpl.
  rewrite !(authenticateToken_caller env auth1 user1) by exact H1.
  rewrite !(authenticateToken_caller env auth2 user2) by exact H2.
  rewrite !create_cashfree_order_paths, !verify_payment_paths.
  repeat split.
Qed.

(** A customer and an administrator verify the same payment and get the
    same result. *)
Lemma payment_routes_ignore_caller_witness :
  let req := OrderIdBody.mk Sample.id1 [] in
  route Sample.env (CreateCashfreeOrder (Some "Bearer tok-alice") req) Sample.online_world
  = route Sample.env (CreateCashfreeOrder (Some "Bearer tok-bob") req) Sample.online_world /\
  route Sample.env (VerifyPayment (Some "Bearer tok-alice") req) Sample.online_world
  = route Sample.env (VerifyPayment (Some "Bearer tok-bob") req) Sample.online_world.
Proof.
  intros req.
  destruct (payment_routes_ignore_caller Sample.env (Some "Bearer tok-alice")
              (Some "Bearer tok-bob") Sample.alice Sample.bob req Sample.online_world
              eq_refl eq_refl) as (Hc & Hv & _).
  split; [exact Hc|exact Hv].
Defined.

(** ** Further properties of the routes *)

Lemma authenticateToken_answers env auth (next : User -> Eff Response) w :
  (forall user w', exists r, fst (next user w') = Normal r) ->
  exists r, fst (authenticateToken env auth next w) = Normal r.
Proof.
  intros Hnext. destruct (caller env auth) as [user|] eqn:Hcaller.
  - rewrite (authenticateToken_caller _ _ user) by exact Hcaller. apply Hnext.
  - destruct (authenticateToken_refused env auth next w Hcaller) as (r & -> & _). eauto.
Qed.

(** X1. No exception escapes a route: every request to the four order
    routes is answered with a response. *)
Theorem route_always_answers env op w :
  exists r, fst (route env op w) = Normal r.
Proof.
  destruct op as [auth body|auth body|auth body|auth id body]; simpl;
    apply authenticateToken_answers; intros user w'.
  - rewrite placeorder_paths. unfold placeorder_failed.
    repeat match goal with
           | |- context [if ?b then _ else _] => destruct b
           | |- context [match ?x with _ => _ end] => destruct x
           end; simpl; eauto.
  - rewrite create_cashfree_order_paths. unfold cashfree_failed.
    repeat match goal with
           | |- context [match ?x with _ => _ end] => destruct x
           end; simpl; eauto.
  - rewrite verify_payment_paths. unfold verify_failed.
    repeat match goal with
           | |- context [match ?x with _ => _ end] => destruct x
           end; simpl; eauto.
  - unfold requireAdmin. destruct (negb _); [simpl; eauto|].
    rewrite admin_update_order_paths. destruct (castObjectId id); simpl; eauto.
Qed.

(** X2. [/placeorder] refuses a request without line items, or without a
    payment method, with 400, and does nothing else. *)
Theorem placeorder_rejects_missing_fields env user body w :
  items_missing (PlaceOrderBody.items body) = true \/
  truthy_str (PlaceOrderBody.paymentMethod body) = false ->
  answered (fst (placeorder env user body w)) 400 /\
  snd (placeorder env user body w) = w.
Proof.
  intros Hmissing. rewrite placeorder_paths.
  destruct (items_missing _); [split; [now eexists|reflexivity]|].
  destruct Hmissing as [?|Hpm]; [discriminate|]. rewrite Hpm.
  split; [now eexists|reflexivity].
Qed.

Lemma placeorder_rejects_missing_fields_witness :
  answered (fst (placeorder Sample.env Sample.alice
                   (PlaceOrderBody.mk (Some []) None (Some "COD") []) Sample.empty_world)) 400 /\
  answered (fst (placeorder Sample.env Sample.alice
                   (PlaceOrderBody.mk (Some Sample.odd_items) None (Some "") [])
                   Sample.empty_world)) 400.
Proof.
  split.
  - apply (placeorder_rejects_missing_fields Sample.env Sample.alice
             (PlaceOrderBody.mk (Some []) None (Some "COD") []) Sample.empty_world).
    now left.
  - apply (placeorder_rejects_missing_fields Sample.env Sample.alice
             (PlaceOrderBody.mk (Some Sample.odd_items) None (Some "") []) Sample.empty_world).
    now right.
Defined.

(** X3. [PUT /admin/orders/:id] is for administrators only, and for them it
    overwrites the order's [status] with whatever string it is given: the
    order stored under the id afterwards has that [status], its
    [paymentStatus] and every other field are as before, and every other
    order and the catalogue are as they were; any other caller is answered
    with 403 and nothing is changed. *)
Theorem admin_update_order_overwrites_status env auth user id oid o body new_status w :
  caller env auth = Some user ->
  castObjectId id = Some oid ->
  orders (db w) !! oid = Some o ->
  StatusBody.status body = Some new_status ->
  let res := route env (AdminUpdateOrder auth id body) w in
  if String.eqb (role user) "admin"
  then fst res = Normal (res_json [("success", BBool true)]) /\
       (exists o',
           orders (db (snd res)) !! oid = Some o' /\
           Order.status o' = new_status /\
           Order.paymentStatus o' = Order.paymentStatus o /\
           same_core o o') /\
       (forall k, k <> oid -> orders (db (snd res)) !! k = orders (db w) !! k) /\
       products (db (snd res)) = products (db w) /\
       gateway_calls (snd res) = gateway_calls w
  else res = (Normal (fail_json 403 "Admin access required"), w).
Proof.
  intros Hcaller Hcast Hsome Hstatus res. subst res. simpl.
  rewrite (authenticateToken_caller _ _ user) by exact Hcaller.
  unfold requireAdmin. destruct (String.eqb (role user) "admin"); simpl; [|reflexivity].
  rewrite admin_update_order_paths, Hcast, Hstatus. simpl.
  split; [reflexivity|]. split; [|split; [|now split]].
  - eexists. rewrite lookup_alter_eq, Hsome. simpl. repeat split.
  - intros k Hk. now rewrite lookup_alter_ne.
Qed.

(** The spec's scenario: the administrator moves the sample order from
    "Processing" to "Shipped"; it stays pending. *)
Lemma admin_update_order_overwrites_status_witness :
  let o := Sample.order_with Sample.id1 ONLINE (Some "9876543210") PENDING in
  let res := route Sample.env
               (AdminUpdateOrder (Some "Bearer tok-bob") Sample.id1
                  (StatusBody.mk (Some "Shipped") [])) Sample.online_world in
  Order.status o = "Processing" /\
  exists o', orders (db (snd res)) !! Sample.id1 = Some o' /\
             Order.status o' = "Shipped" /\
             Order.paymentStatus o' = PENDING.
Proof.
  intros o res. split; [reflexivity|].
  destruct (admin_update_order_overwrites_status Sample.env (Some "Bearer tok-bob")
              Sample.bob Sample.id1 Sample.id1 o (StatusBody.mk (Some "Shipped") [])
              "Shipped" Sample.online_world eq_refl eq_refl eq_refl eq_refl)
    as (_ & (o' & Hsome & Hst & Hps & _) & _).
  exists o'. now repeat split.
Defined.

(** * More of the server *)

(** ** The token middleware reads one word of the header *)

Lemma split_space_word (s : string) : no_space s = true -> split_space s = [s].
Proof.
  induction s as [|c s IH]; simpl; [reflexivity|].
  intros [Hc Hs]%andb_prop. rewrite (IH Hs).
  now destruct (Ascii.eqb c space).
Qed.

Lemma split_space_app (s rest : string) :
  no_space s = true ->
  split_space (s ++ String space rest) = s :: split_space rest.
Proof.
  induction s as [|c s IH]; simpl.
  - intros _. cbn. reflexivity.
  - intros [Hc Hs]%andb_prop. rewrite (IH Hs).
    now destruct (Ascii.eqb c space).
Qed.

Lemma append_empty (s : string) : s ++ "" = s.
Proof.
  induction s as [|c s IH]; [reflexivity|].
  change (String c (s ++ "") = String c s). now rewrite IH.
Qed.

Lemma app_space_truthy (s rest : string) : truthy_str (Some (s ++ String space rest)) = true.
Proof. now destruct s. Qed.

(** The second word of a header made of a scheme, a token and anything
    after it. *)
Lemma header_token (scheme token : string) (junk : option string) :
  no_space scheme = true ->
  no_space token = true ->
  split_space (scheme ++ " " ++ token ++ from_option (fun j => " " ++ j) "" junk) !! 1%nat
  = Some token.
Proof.
  intros Hscheme Htoken.
  change (scheme ++ " " ++ ?x) with (scheme ++ String space x).
  rewrite split_space_app by exact Hscheme. simpl.
  destruct junk as [j|]; simpl.
  - change (token ++ " " ++ j) with (token ++ String space j).
    now rewrite split_space_app.
  - now rewrite append_empty, split_space_word.
Qed.

(** X4. The token middleware takes the second space-separated word of the
    [Authorization] header for the token and looks at nothing else. For a
    header made of a first word, a space, a second word and possibly
    another space and more text, it is the second word that is verified:
    when it is empty the answer is 401, when verification fails the answer
    is 403, and otherwise the request goes on as the user the token stands
    for; the first word (the scheme) and the text after the token play no
    part. A header of one word, and no header at all, get 401. *)
Theorem authenticateToken_reads_second_word env (next : User -> Eff Response) w :
  (forall scheme token junk,
      no_space scheme = true ->
      no_space token = true ->
      authenticateToken env
        (Some (scheme ++ " " ++ token ++ from_option (fun j => " " ++ j) "" junk)) next w
      = if String.eqb token ""
        then (Normal (fail_json 401 "No token provided"), w)
        else match jwt_verify env token with
             | Some user => next user w
             | None => (Normal (fail_json 403 "Invalid token"), w)
             end) /\
  (forall word,
      no_space word = true ->
      authenticateToken env (Some word) next w
      = (Normal (fail_json 401 "No token provided"), w)) /\
  authenticateToken env None next w = (Normal (fail_json 401 "No token provided"), w).
Proof.
  split; [|split; [|reflexivity]].
  - intros scheme token junk Hscheme Htoken.
    pose proof (header_token scheme token junk Hscheme Htoken) as Hword.
    unfold authenticateToken.
    change (scheme ++ " " ++ ?x) with (scheme ++ String space x) in *.
    rewrite app_space_truthy. cbn [mbind option_bind]. rewrite Hword.
    unfold truthy_str. cbn [negb default].
    destruct (String.eqb token ""); cbn [negb]; [reflexivity|].
    unfold id. now destruct (jwt_verify env token).
  - intros word Hword. unfold authenticateToken.
    destruct word as [|c rest]; [reflexivity|].
    change (truthy_str (Some (String c rest))) with true.
    cbn [mbind option_bind]. now rewrite split_space_word.
Qed.

(** A customer's token is accepted behind "Bearer", behind "Basic" and with
    trailing text alike; an unknown token in the same place is refused, and
    so is the token on its own. *)
Lemma authenticateToken_reads_second_word_witness :
  let req := OrderIdBody.mk Sample.id1 [] in
  let next := fun user => verify_payment Sample.env user req in
  authenticateToken Sample.env (Some "Bearer tok-alice") next Sample.online_world
  = verify_payment Sample.env Sample.alice req Sample.online_world /\
  authenticateToken Sample.env (Some "Basic tok-alice and more") next Sample.online_world
  = verify_payment Sample.env Sample.alice req Sample.online_world /\
  authenticateToken Sample.env (Some "Bearer tok-mallory") next Sample.online_world
  = (Normal (fail_json 403 "Invalid token"), Sample.online_world) /\
  authenticateToken Sample.env (Some "tok-alice") next Sample.online_world
  = (Normal (fail_json 401 "No token provided"), Sample.online_world).
Proof.
  intros req next.
  destruct (authenticateToken_reads_second_word Sample.env next Sample.online_world)
    as (Hsecond & Hone & _).
  split; [|split; [|split]].
  - exact (Hsecond "Bearer" "tok-alice" None eq_refl eq_refl).
  - exact (Hsecond "Basic" "tok-alice" (Some "and more") eq_refl eq_refl).
  - exact (Hsecond "Bearer" "tok-mallory" None eq_refl eq_refl).
  - exact (Hone "tok-alice" eq_refl).
Defined.

(** ** Sorted queries *)

Section SortDesc.
Context {A : Type} (key : A -> float).

Lemma insert_desc_perm (x : A) (l : list A) : insert_desc key x l ≡ₚ x :: l.
Proof.
  induction l as [|y l IH]; simpl; [reflexivity|].
  destruct (key y <=? key x)%float; [reflexivity|].
  rewrite IH. apply Permutation_swap.
Qed.

Lemma sort_desc_perm (l : list A) : sort_desc key l ≡ₚ l.
Proof.
  induction l as [|x l IH]; simpl; [reflexivity|].
  now rewrite insert_desc_perm, IH.
Qed.

Lemma insert_desc_hd (a x : A) (l : list A) :
  descending key a x -> HdRel (descending key) a l ->
  HdRel (descending key) a (insert_desc key x l).
Proof.
  intros Hax Hal. destruct l as [|y l]; simpl; [now constructor|].
  destruct (key y <=? key x)%float; constructor; [exact Hax|].
  now inversion Hal.
Qed.

Lemma insert_desc_sorted (x : A) (l : list A) :
  Sorted (descending key) l -> Sorted (descending key) (insert_desc key x l).
Proof.
  induction 1 as [|y l Hsorted IH Hhd]; simpl; [repeat constructor|].
  destruct (key y <=? key x)%float eqn:Hle.
  - constructor; [now constructor|]. constructor.
    unfold descending, strictly_less. rewrite Hle. apply andb_false_r.
  - constructor; [exact IH|]. apply insert_desc_hd; [|exact Hhd].
    unfold descending, strictly_less. now rewrite Hle.
Qed.

Lemma sort_desc_sorted (l : list A) : Sorted (descending key) (sort_desc key l).
Proof.
  induction l as [|x l IH]; simpl; [constructor|]. now apply insert_desc_sorted.
Qed.

End SortDesc.


(** ** The order of Numbers *)

Ltac cmp_cases :=
  repeat match goal with
         | H : context [Pos.compare_cont Eq ?a ?b] |- _ =>
           change (Pos.compare_cont Eq a b) with (Pos.compare a b) in H
         | |- context [Pos.compare_cont Eq ?a ?b] =>
           change (Pos.compare_cont Eq a b) with (Pos.compare a b)
         end;
  repeat match goal with
         | H : context [Z.compare ?a ?b] |- _ => destruct (Z.compare_spec a b); simpl in H
         | H : context [Pos.compare ?a ?b] |- _ => destruct (Pos.compare_spec a b); simpl in H
         | |- context [Z.compare ?a ?b] => destruct (Z.compare_spec a b); simpl
         | |- context [Pos.compare ?a ?b] => destruct (Pos.compare_spec a b); simpl
         end;
  try reflexivity; try discriminate; try lia; try (subst; lia).

Lemma SFleb_trans (a b c : SpecFloat.spec_float) :
  SpecFloat.SFleb a b = true -> SpecFloat.SFleb b c = true -> SpecFloat.SFleb a c = true.
Proof.
  unfold SpecFloat.SFleb, SpecFloat.SFcompare.
  destruct a as [[]|[]| |[] ma ea], b as [[]|[]| |[] mb eb], c as [[]|[]| |[] mc ec];
    simpl; intros Hab Hbc; try reflexivity; try discriminate; cmp_cases.
Qed.

Lemma SFleb_total (a b : SpecFloat.spec_float) :
  a <> SpecFloat.S754_nan -> b <> SpecFloat.S754_nan ->
  SpecFloat.SFleb a b = true \/ SpecFloat.SFleb b a = true.
Proof.
  unfold SpecFloat.SFleb, SpecFloat.SFcompare.
  destruct a as [[]|[]| |[] ma ea], b as [[]|[]| |[] mb eb];
    simpl; intros Ha Hb; try congruence; auto;
    cmp_cases; auto; try (right; cmp_cases).
Qed.

Lemma is_number_spec (x : float) : is_number x -> Prim2SF x <> SpecFloat.S754_nan.
Proof.
  unfold is_number, PrimFloat.is_nan. rewrite FloatAxioms.eqb_spec.
  intros H Hnan. rewrite Hnan in H. discriminate.
Qed.

Lemma float_leb_trans (x y z : float) :
  (x <=? y)%float = true -> (y <=? z)%float = true -> (x <=? z)%float = true.
Proof. rewrite !leb_spec. apply SFleb_trans. Qed.

Lemma float_leb_total (x y : float) :
  is_number x -> is_number y -> (x <=? y)%float = true \/ (y <=? x)%float = true.
Proof. intros Hx Hy. rewrite !leb_spec. apply SFleb_total; now apply is_number_spec. Qed.

Lemma float_leb_refl (x : float) : is_number x -> (x <=? x)%float = true.
Proof. intros Hx. now destruct (float_leb_total x x Hx Hx). Qed.

Section SortDescNumbers.
Context {A : Type} (key : A -> float).

Lemma insert_desc_strongly (x : A) (l : list A) :
  is_number (key x) ->
  Forall (fun a => is_number (key a)) l ->
  StronglySorted (at_most key) l ->
  StronglySorted (at_most key) (insert_desc key x l).
Proof.
  intros Hx Hl Hsorted. induction Hsorted as [|y l Hsorted IH Hall]; simpl.
  - repeat constructor.
  - apply Forall_cons in Hl as [Hy Hl].
    destruct (key y <=? key x)%float eqn:Hle.
    + constructor; [now constructor|]. constructor; [exact Hle|].
      eapply Forall_impl; [exact Hall|]. intros a Ha. unfold at_most in *.
      now apply (float_leb_trans _ (key y)).
    + constructor; [now apply IH|].
      rewrite (insert_desc_perm key x l). constructor; [|exact Hall].
      unfold at_most. now destruct (float_leb_total (key x) (key y) Hx Hy) as [H|H];
        [exact H|congruence].
Qed.

(** Among keys that are Numbers the result is ordered throughout: every
    document's key is at most the key of each document before it. *)
Lemma sort_desc_strongly (l : list A) :
  Forall (fun a => is_number (key a)) l ->
  StronglySorted (at_most key) (sort_desc key l).
Proof.
  induction l as [|x l IH]; simpl; intros Hl; [constructor|].
  apply Forall_cons in Hl as [Hx Hl].
  apply insert_desc_strongly; [exact Hx| |now apply IH].
  now rewrite sort_desc_perm.
Qed.

(** The first document of the result has the greatest key. *)
Lemma sort_desc_head (l : list A) :
  Forall (fun a => is_number (key a)) l ->
  match head (sort_desc key l) with
  | None => l = []
  | Some top => top ∈ l /\ forall a, a ∈ l -> (key a <=? key top)%float = true
  end.
Proof.
  intros Hl. pose proof (sort_desc_strongly l Hl) as Hsorted.
  pose proof (sort_desc_perm key l) as Hperm.
  destruct (sort_desc key l) as [|top rest]; simpl.
  - now apply Permutation_nil_l in Hperm.
  - split; [rewrite <- Hperm; now left|].
    intros a Ha. rewrite <- Hperm in Ha.
    apply StronglySorted_cons in Hsorted as [Hall _].
    apply elem_of_cons in Ha as [->|Ha].
    + apply float_leb_refl. rewrite Forall_forall in Hl. apply Hl.
      rewrite <- Hperm. now left.
    + rewrite Forall_forall in Hall. now apply Hall.
Qed.

End SortDescNumbers.

(** ** The middlewares in front of a [Reply] *)

Lemma authenticateToken_for_Response env auth (next : User -> Eff Response) :
  authenticateToken_for id env auth next = authenticateToken env auth next.
Proof. reflexivity. Qed.

Lemma requireAdmin_for_Response user (next : Eff Response) :
  requireAdmin_for id user next = requireAdmin user next.
Proof. reflexivity. Qed.

Lemma authenticateToken_for_caller {R} (json : Response -> R) env auth user
    (next : User -> Eff R) :
  caller env auth = Some user ->
  authenticateToken_for json env auth next = next user.
Proof.
  unfold caller, authenticateToken_for, truthy_str.
  destruct auth as [h|]; simpl; [|discriminate].
  destruct (String.eqb h "") eqn:Hh; simpl.
  - apply String.eqb_eq in Hh. subst h. simpl. discriminate.
  - destruct (split_space h !! 1%nat) as [token|]; simpl; [|discriminate].
    destruct (String.eqb token ""); simpl; [discriminate|].
    now intros ->.
Qed.

Lemma authenticateToken_for_refused {R} (json : Response -> R) env auth
    (next : User -> Eff R) w :
  caller env auth = None ->
  exists r, authenticateToken_for json env auth next w = (Normal (json r), w) /\
            (status_code r = 401 \/ status_code r = 403).
Proof.
  unfold caller, authenticateToken_for, truthy_str. intros H.
  destruct auth as [h|]; simpl in *.
  - destruct (String.eqb h "") eqn:Hh; simpl.
    + rewrite Hh. eexists; split; [reflexivity|now left].
    + destruct (split_space h !! 1%nat) as [token|]; simpl in *.
      * destruct (String.eqb token ""); simpl.
        -- eexists; split; [reflexivity|now left].
        -- rewrite H. eexists; split; [reflexivity|now right].
      * eexists; split; [reflexivity|now left].
  - eexists; split; [reflexivity|now left].
Qed.

(** ** [GET /orders] and [GET /admin/orders] *)

Lemma stored_orders_elem (w : World) (o : Order.t) :
  o ∈ stored_orders w <-> exists oid, orders (db w) !! oid = Some o.
Proof.
  unfold stored_orders. rewrite list_elem_of_fmap. split.
  - intros ([oid o'] & -> & Hin). exists oid. now apply elem_of_map_to_list.
  - intros (oid & Hsome). exists (oid, o). split; [reflexivity|].
    now apply elem_of_map_to_list.
Qed.

Lemma Order_find_sorted_paths (filter : Order.t -> bool) w :
  Order_find_sorted filter w
  = (Normal (sort_desc Order.createdAt (List.filter filter (stored_orders w))), w).
Proof. reflexivity. Qed.

Lemma Forall_filter_list {A} (P : A -> Prop) (f : A -> bool) (l : list A) :
  Forall P l -> Forall P (List.filter f l).
Proof.
  rewrite !Forall_forall. intros H x Hx. apply H.
  apply list_elem_of_In in Hx. apply filter_In in Hx as [Hx _]. now apply list_elem_of_In.
Qed.

(** X5. [GET /orders] answers an authenticated caller with exactly the
    stored orders whose [userEmail] is the caller's, each once, the newest
    first, and changes nothing. No order in the answer is followed by a
    strictly newer one; when the creation times are Numbers, every order is
    at least as new as all that follow it. *)
Theorem list_orders_own_newest_first env lib auth user s :
  caller env auth = Some user ->
  let res := handle env lib (GetOrders auth) s in
  exists l,
    fst res = Normal (OrdersReply l) /\
    (forall o, o ∈ l <->
               Order.userEmail o = email user /\
               exists oid, orders (db (world s)) !! oid = Some o) /\
    l ≡ₚ List.filter (fun o => String.eqb (Order.userEmail o) (email user))
           (stored_orders (world s)) /\
    Sorted (descending Order.createdAt) l /\
    (Forall (fun o => is_number (Order.createdAt o)) (stored_orders (world s)) ->
     StronglySorted (at_most Order.createdAt) l) /\
    snd res = s.
Proof.
  intros Hcaller res. subst res. destruct s as [w us]. simpl.
  unfold in_world. simpl.
  rewrite (authenticateToken_for_caller _ _ _ user) by exact Hcaller.
  unfold list_orders, try_catch. eff_unfold. rewrite Order_find_sorted_paths. simpl.
  eexists. split; [reflexivity|]. split; [|split; [apply sort_desc_perm|split; [|split]]].
  - intros o. rewrite sort_desc_perm, list_elem_of_In, filter_In, <- list_elem_of_In.
    rewrite stored_orders_elem, String.eqb_eq. tauto.
  - apply sort_desc_sorted.
  - intros Hdates. apply sort_desc_strongly. now apply Forall_filter_list.
  - reflexivity.
Qed.

(** Alice is shown her two orders, the later one first, and not Bob's. *)
Lemma list_orders_own_newest_first_witness :
  fst (handle Sample.env Demo.lib (GetOrders (Some "Bearer tok-alice")) Demo.site)
  = Normal (OrdersReply [Demo.o3; Demo.o1]) /\
  exists l,
    fst (handle Sample.env Demo.lib (GetOrders (Some "Bearer tok-alice")) Demo.site)
    = Normal (OrdersReply l) /\
    Demo.o1 ∈ l /\ Demo.o3 ∈ l /\ (Demo.o2 ∈ l -> False).
Proof.
  split; [reflexivity|].
  destruct (list_orders_own_newest_first Sample.env Demo.lib (Some "Bearer tok-alice")
              Sample.alice Demo.site eq_refl) as (l & Hres & Hmem & _).
  exists l. split; [exact Hres|]. split; [|split].
  - apply Hmem. split; [reflexivity|]. now exists Sample.id1.
  - apply Hmem. split; [reflexivity|]. now exists Sample.id3.
  - intros [Hemail _]%Hmem. discriminate.
Defined.

(** X6. [GET /admin/orders] changes nothing. It answers an administrator
    with every stored order, each once, the newest first (ordered
    throughout when the creation times are Numbers), and any other
    authenticated caller with 403. *)
Theorem admin_list_orders_all env lib auth user s :
  caller env auth = Some user ->
  let res := handle env lib (GetAdminOrders auth) s in
  snd res = s /\
  if String.eqb (role user) "admin"
  then exists l,
      fst res = Normal (OrdersReply l) /\
      l ≡ₚ stored_orders (world s) /\
      (forall o, o ∈ l <-> exists oid, orders (db (world s)) !! oid = Some o) /\
      Sorted (descending Order.createdAt) l /\
      (Forall (fun o => is_number (Order.createdAt o)) (stored_orders (world s)) ->
       StronglySorted (at_most Order.createdAt) l)
  else fst res = Normal (Json (fail_json 403 "Admin access required")).
Proof.
  intros Hcaller res. subst res. destruct s as [w us]. simpl.
  unfold in_world. simpl.
  rewrite (authenticateToken_for_caller _ _ _ user) by exact Hcaller.
  unfold requireAdmin_for. destruct (String.eqb (role user) "admin"); cbn [negb]; [|now split].
  unfold admin_list_orders, try_catch. eff_unfold. rewrite Order_find_sorted_paths. simpl.
  split; [reflexivity|]. eexists. split; [reflexivity|].
  assert (Hall : List.filter (fun _ : Order.t => true) (stored_orders w) = stored_orders w).
  { induction (stored_orders w) as [|o l IH]; simpl; [reflexivity|now rewrite IH]. }
  rewrite Hall. split; [apply sort_desc_perm|split; [|split; [apply sort_desc_sorted|]]].
  - intros o. now rewrite sort_desc_perm, stored_orders_elem.
  - apply sort_desc_strongly.
Qed.

(** Bob, an administrator, sees all three orders; Alice is refused. *)
Lemma admin_list_orders_all_witness :
  fst (handle Sample.env Demo.lib (GetAdminOrders (Some "Bearer tok-bob")) Demo.site)
  = Normal (OrdersReply [Demo.o3; Demo.o2; Demo.o1]) /\
  fst (handle Sample.env Demo.lib (GetAdminOrders (Some "Bearer tok-alice")) Demo.site)
  = Normal (Json (fail_json 403 "Admin access required")).
Proof.
  split; [reflexivity|].
  apply (admin_list_orders_all Sample.env Demo.lib (Some "Bearer tok-alice") Sample.alice
           Demo.site eq_refl).
Defined.

(** ** The catalogue routes, path by path *)

Lemma addproduct_paths env lib user body w :
  addproduct env lib user body w =
  if product_fields_missing body
  then (Normal (Json (fail_json 400 "All product fields are required")), w)
  else match new_Product env (addproduct_init lib body (products (db w))) with
       | inl e => addproduct_failed e w
       | inr doc =>
         if existsb (has_id (Product.id doc)) (products (db w))
         then addproduct_failed
                (mkJsError "MongoServerError" "E11000 duplicate key error: id" None) w
         else (Normal (ProductReply doc), with_products (products (db w) ++ [doc]) w)
       end.
Proof.
  unfold addproduct, product_fields_missing, Product_findOne_last, Product_save.
  unfold get_products, put_products. eff_unfold.
  destruct (_ || _); [reflexivity|].
  fold (next_product_id (products (db w))).
  fold (addproduct_init lib body (products (db w))).
  destruct (new_Product env _) as [e|doc]; [reflexivity|].
  unfold has_id. now destruct (existsb _ _).
Qed.

Lemma removeproduct_paths env user id w :
  removeproduct env user id w =
  (Normal (Json (res_json [("success", BBool true)])),
   with_products (remove_first (has_id id) (products (db w))) w).
Proof. reflexivity. Qed.

Lemma allproducts_paths env w :
  allproducts env w = (Normal (ProductsReply (sort_desc Product.date (products (db w)))), w).
Proof. reflexivity. Qed.

Lemma with_products_same (w : World) : with_products (products (db w)) w = w.
Proof. now destruct w as [[m ps] calls logs]. Qed.

(** ** What the order routes leave alone *)

Lemma same_core_refl (o : Order.t) : same_core o o.
Proof. now repeat split. Qed.

Lemma same_core_trans (o1 o2 o3 : Order.t) :
  same_core o1 o2 -> same_core o2 o3 -> same_core o1 o3.
Proof. unfold same_core. intros H1 H2. intuition congruence. Qed.

Lemma same_core_update (u : OrderUpdate) (o : Order.t) : same_core o (apply_update u o).
Proof.
  unfold apply_update. destruct (upd_paymentStatus u), (upd_status u); now repeat split.
Qed.

Lemma route_keeps_core env op w oid o :
  orders (db w) !! oid = Some o ->
  exists o', orders (db (snd (route env op w))) !! oid = Some o' /\ same_core o o'.
Proof.
  intros Hsome.
  assert (Hsame : exists o', orders (db w) !! oid = Some o' /\ same_core o o')
    by (exists o; split; [exact Hsome|apply same_core_refl]).
  assert (Halter : forall u oid',
             exists o', alter (apply_update u) oid' (orders (db w)) !! oid = Some o' /\
                        same_core o o').
  { intros u oid'. destruct (decide (oid' = oid)) as [->|Hne].
    - rewrite lookup_alter_eq, Hsome. simpl. eexists. split; [reflexivity|].
      apply same_core_update.
    - now rewrite lookup_alter_ne. }
  destruct op as [auth body|auth body|auth body|auth id body];
    (destruct (caller env auth) as [user|] eqn:Hcaller;
     [|now rewrite route_refused by exact Hcaller]);
    simpl; rewrite (authenticateToken_caller _ _ user) by exact Hcaller.
  - rewrite placeorder_paths.
    destruct (items_missing _); [exact Hsame|].
    destruct (negb (truthy_str _)); [exact Hsame|].
    destruct (new_Order env _) as [e|doc]; [exact Hsame|].
    destruct (orders (db w) !! Order._id doc) eqn:Hfresh; [exact Hsame|].
    simpl. rewrite lookup_insert_ne by congruence. exact Hsame.
  - now rewrite create_cashfree_order_db.
  - rewrite verify_payment_paths. simpl.
    destruct (pgAxios env _) as [r|e]; [|exact Hsame].
    destruct (is_nullish _); [exact Hsame|].
    destruct (strict_eq_str _ _); [|exact Hsame].
    destruct (castObjectId _); [apply Halter|exact Hsame].
  - unfold requireAdmin. destruct (negb _); [exact Hsame|].
    rewrite admin_update_order_paths.
    destruct (castObjectId id); [apply Halter|exact Hsame].
Qed.

Lemma route_keeps_products env op w :
  products (db (snd (route env op w))) = products (db w).
Proof.
  destruct op as [auth body|auth body|auth body|auth id body];
    (destruct (caller env auth) as [user|] eqn:Hcaller;
     [|now rewrite route_refused by exact Hcaller]);
    simpl; rewrite (authenticateToken_caller _ _ user) by exact Hcaller.
  - rewrite placeorder_paths.
    destruct (items_missing _); [reflexivity|].
    destruct (negb (truthy_str _)); [reflexivity|].
    destruct (new_Order env _) as [e|doc]; [reflexivity|].
    now destruct (orders (db w) !! Order._id doc).
  - now rewrite create_cashfree_order_db.
  - rewrite verify_payment_paths. simpl.
    destruct (pgAxios env _) as [r|e]; [|reflexivity].
    destruct (is_nullish _); [reflexivity|].
    destruct (strict_eq_str _ _); [|reflexivity].
    now destruct (castObjectId _).
  - unfold requireAdmin. destruct (negb _); [reflexivity|].
    rewrite admin_update_order_paths. now destruct (castObjectId id).
Qed.

(** ** The account routes, path by path *)

Lemma find_none_existsb {A} (p : A -> bool) (l : list A) :
  List.find p l = None -> existsb p l = false.
Proof.
  induction l as [|x l IH]; simpl; [reflexivity|].
  destruct (p x); [discriminate|exact IH].
Qed.

Lemma truthy_str_default (s : option string) :
  truthy_str s = true -> String.eqb (default "" s) "" = false.
Proof.
  destruct s as [t|]; simpl; [|discriminate].
  now destruct (String.eqb t "").
Qed.

Lemma signup_paths lib body s :
  signup lib body s =
  if signup_fields_missing body
  then (Normal (fail_json 400 "All fields are required"), s)
  else match List.find (has_email (default "" (SignupBody.email body))) (users s) with
       | Some _ => (Normal (fail_json 400 "Email already exists"), s)
       | None =>
         if String.eqb (bcrypt_hash lib (default "" (SignupBody.password body))) ""
         then account_failed "Signup Error:" (UserValidationError "password") s
         else (Normal signup_ok, mkSite (world s) (users s ++ [signup_account lib body]))
       end.
Proof.
  unfold signup, signup_fields_missing, User_findOne, User_save, stry_catch.
  unfold mbind, mret, SEff_bind, SEff_ret, get_users, put_users, sthrow.
  destruct (truthy_str (SignupBody.username body)) eqn:Hu; [|reflexivity].
  destruct (truthy_str (SignupBody.email body)) eqn:He; [|reflexivity].
  destruct (truthy_str (SignupBody.password body)) eqn:Hp; [|reflexivity].
  cbn [negb orb]. fold (has_email (default "" (SignupBody.email body))).
  destruct (List.find _ (users s)) as [u|] eqn:Hfind.
  - rewrite bool_decide_eq_true_2 by eauto. reflexivity.
  - rewrite bool_decide_eq_false_2 by (intros [? ?]; discriminate).
    rewrite (truthy_str_default _ Hu), (truthy_str_default _ He).
    destruct (String.eqb (bcrypt_hash lib _) ""); [reflexivity|].
    now rewrite (find_none_existsb _ _ Hfind).
Qed.

Lemma login_paths lib body s :
  login lib body s =
  (Normal
     (if negb (truthy_str (LoginBody.email body)) || negb (truthy_str (LoginBody.password body))
      then fail_json 400 "Email and password required"
      else match List.find (has_email (default "" (LoginBody.email body))) (users s) with
           | None => fail_json 400 "Invalid email"
           | Some u =>
             if bcrypt_compare lib (default "" (LoginBody.password body)) (Account.password u)
             then login_ok lib u
             else fail_json 400 "Invalid password"
           end),
   s).
Proof.
  unfold login, User_findOne, stry_catch.
  unfold mbind, mret, SEff_bind, SEff_ret, get_users.
  destruct (_ || _); [reflexivity|].
  fold (has_email (default "" (LoginBody.email body))).
  destruct (List.find _ (users s)) as [u|]; [|reflexivity].
  now destruct (bcrypt_compare lib _ _).
Qed.

(** ** One request, and what it can touch *)

Lemma in_world_snd {A} (m : Eff A) (s : Site) :
  snd (in_world m s) = mkSite (snd (m (world s))) (users s).
Proof. unfold in_world. now destruct (m (world s)). Qed.

(** Orders change through the order routes only. *)
Lemma handle_orders env lib req s :
  orders (db (world (snd (handle env lib req s)))) =
  match req with
  | OrderRoute op => orders (db (snd (route env op (world s))))
  | _ => orders (db (world s))
  end.
Proof.
  destruct req as [op|auth|auth|auth body|auth id| |body|body]; simpl.
  - rewrite in_world_snd. simpl. unfold mbind, mret, Eff_bind, Eff_ret.
    now destruct (route env op (world s)) as [[r|e] w'].
  - rewrite in_world_snd. simpl.
    destruct (caller env auth) as [user|] eqn:Hcaller.
    + now rewrite (authenticateToken_for_caller _ _ _ user).
    + now destruct (authenticateToken_for_refused Json env auth
                      (fun user => list_orders env user) (world s) Hcaller) as (r & -> & _).
  - rewrite in_world_snd. simpl.
    destruct (caller env auth) as [user|] eqn:Hcaller.
    + rewrite (authenticateToken_for_caller _ _ _ user) by exact Hcaller.
      unfold requireAdmin_for. now destruct (negb _).
    + now destruct (authenticateToken_for_refused Json env auth
                      (fun user => requireAdmin_for Json user (admin_list_orders env user))
                      (world s) Hcaller) as (r & -> & _).
  - rewrite in_world_snd. simpl.
    destruct (caller env auth) as [user|] eqn:Hcaller.
    + rewrite (authenticateToken_for_caller _ _ _ user) by exact Hcaller.
      unfold requireAdmin_for. destruct (negb _); [reflexivity|].
      rewrite addproduct_paths.
      destruct (product_fields_missing body); [reflexivity|].
      destruct (new_Product env _) as [e|doc]; [reflexivity|].
      now destruct (existsb _ _).
    + now destruct (authenticateToken_for_refused Json env auth
                      (fun user => requireAdmin_for Json user (addproduct env lib user body))
                      (world s) Hcaller) as (r & -> & _).
  - rewrite in_world_snd. simpl.
    destruct (caller env auth) as [user|] eqn:Hcaller.
    + rewrite (authenticateToken_for_caller _ _ _ user) by exact Hcaller.
      unfold requireAdmin_for. now destruct (negb _).
    + now destruct (authenticateToken_for_refused Json env auth
                      (fun user => requireAdmin_for Json user (removeproduct env user id))
                      (world s) Hcaller) as (r & -> & _).
  - reflexivity.
  - unfold mbind, mret, SEff_bind, SEff_ret. rewrite signup_paths.
    destruct (signup_fields_missing body); [reflexivity|].
    destruct (List.find _ _); [reflexivity|].
    now destruct (String.eqb _ _).
  - unfold mbind, mret, SEff_bind, SEff_ret. now rewrite login_paths.
Qed.

(** The catalogue changes through an administrator's request only. *)
Lemma handle_products env lib req s :
  products (db (world (snd (handle env lib req s)))) = products (db (world s)) \/
  admin_catalogue_request env req.
Proof.
  destruct req as [op|auth|auth|auth body|auth id| |body|body]; simpl.
  - left. rewrite in_world_snd. simpl. unfold mbind, mret, Eff_bind, Eff_ret.
    pose proof (route_keeps_products env op (world s)) as Hkeep.
    now destruct (route env op (world s)) as [[r|e] w'].
  - left. rewrite in_world_snd. simpl.
    destruct (caller env auth) as [user|] eqn:Hcaller.
    + now rewrite (authenticateToken_for_caller _ _ _ user).
    + now destruct (authenticateToken_for_refused Json env auth
                      (fun user => list_orders env user) (world s) Hcaller) as (r & -> & _).
  - left. rewrite in_world_snd. simpl.
    destruct (caller env auth) as [user|] eqn:Hcaller.
    + rewrite (authenticateToken_for_caller _ _ _ user) by exact Hcaller.
      unfold requireAdmin_for. now destruct (negb _).
    + now destruct (authenticateToken_for_refused Json env auth
                      (fun user => requireAdmin_for Json user (admin_list_orders env user))
                      (world s) Hcaller) as (r & -> & _).
  - rewrite in_world_snd. simpl.
    destruct (caller env auth) as [user|] eqn:Hcaller.
    + rewrite (authenticateToken_for_caller _ _ _ user) by exact Hcaller.
      unfold requireAdmin_for.
      destruct (String.eqb (role user) "admin") eqn:Hrole; [|now left].
      right. exists auth, user. apply String.eqb_eq in Hrole. eauto 6.
    + left.
      now destruct (authenticateToken_for_refused Json env auth
                      (fun user => requireAdmin_for Json user (addproduct env lib user body))
                      (world s) Hcaller) as (r & -> & _).
  - rewrite in_world_snd. simpl.
    destruct (caller env auth) as [user|] eqn:Hcaller.
    + rewrite (authenticateToken_for_caller _ _ _ user) by exact Hcaller.
      unfold requireAdmin_for.
      destruct (String.eqb (role user) "admin") eqn:Hrole; [|now left].
      right. exists auth, user. apply String.eqb_eq in Hrole. eauto 6.
    + left.
      now destruct (authenticateToken_for_refused Json env auth
                      (fun user => requireAdmin_for Json user (removeproduct env user id))
                      (world s) Hcaller) as (r & -> & _).
  - now left.
  - left. unfold mbind, mret, SEff_bind, SEff_ret. rewrite signup_paths.
    destruct (signup_fields_missing body); [reflexivity|].
    destruct (List.find _ _); [reflexivity|].
    now destruct (String.eqb _ _).
  - left. unfold mbind, mret, SEff_bind, SEff_ret. now rewrite login_paths.
Qed.

(** Accounts are only ever added, by [/signup], with the role "user". *)
Lemma handle_users env lib req s :
  users (snd (handle env lib req s)) = users s \/
  exists body,
    req = Signup body /\
    List.find (has_email (Account.email (signup_account lib body))) (users s) = None /\
    users (snd (handle env lib req s)) = (users s ++ [signup_account lib body])%list.
Proof.
  destruct req as [op|auth|auth|auth body|auth id| |body|body]; simpl;
    try (left; rewrite in_world_snd; reflexivity).
  - now left.
  - unfold mbind, mret, SEff_bind, SEff_ret. rewrite signup_paths.
    destruct (signup_fields_missing body); [now left|].
    destruct (List.find _ _) eqn:Hfind; [now left|].
    destruct (String.eqb _ _); [now left|].
    right. exists body. now repeat split.
  - left. unfold mbind, mret, SEff_bind, SEff_ret. now rewrite login_paths.
Qed.

(** ** Over the life of the whole server *)

(** X7. Whatever requests the server handles, a stored order is never
    removed, and its id, owner, line items, total, shipping address,
    payment method and creation time never change: only its two statuses
    can. *)
Theorem orders_keep_their_core reqs s oid o :
  orders (db (world s)) !! oid = Some o ->
  exists o',
    orders (db (world (run reqs s))) !! oid = Some o' /\
    Order._id o' = Order._id o /\
    Order.userEmail o' = Order.userEmail o /\
    Order.items o' = Order.items o /\
    Order.totalAmount o' = Order.totalAmount o /\
    Order.shippingAddress o' = Order.shippingAddress o /\
    Order.paymentMethod o' = Order.paymentMethod o /\
    Order.createdAt o' = Order.createdAt o.
Proof.
  change (orders (db (world s)) !! oid = Some o ->
          exists o', orders (db (world (run reqs s))) !! oid = Some o' /\ same_core o o').
  revert s o. induction reqs as [|[[env lib] req] reqs IH]; intros s o Hsome; simpl.
  - exists o. split; [exact Hsome|apply same_core_refl].
  - assert (Hstep : exists o1,
               orders (db (world (snd (handle env lib req s)))) !! oid = Some o1 /\
               same_core o o1).
    { rewrite handle_orders. destruct req; try (exists o; split; [exact Hsome|apply same_core_refl]).
      now apply route_keeps_core. }
    destruct Hstep as (o1 & Hsome1 & Hcore1).
    destruct (IH _ _ Hsome1) as (o' & Hsome' & Hcore').
    exists o'. split; [exact Hsome'|]. exact (same_core_trans _ _ _ Hcore1 Hcore').
Qed.

(** Alice's first order after a payment, a status update by the
    administrator, a new product and a new account: still hers, same total. *)
Lemma orders_keep_their_core_witness :
  let reqs :=
    [(Sample.env, Demo.lib,
      OrderRoute (VerifyPayment (Some "Bearer tok-alice") (OrderIdBody.mk Sample.id1 [])));
     (Sample.env, Demo.lib,
      OrderRoute (AdminUpdateOrder (Some "Bearer tok-bob") Sample.id1
                    (StatusBody.mk (Some "Shipped") [])));
     (Sample.env, Demo.lib,
      AddProduct (Some "Bearer tok-bob") (Demo.product_body (Some (Num 9%float))));
     (Sample.env, Demo.lib,
      Signup (SignupBody.mk (Some "dave") (Some "dave@example.com") (Some "pw") []))] in
  exists o',
    orders (db (world (run reqs Demo.site))) !! Sample.id1 = Some o' /\
    Order.userEmail o' = "alice@example.com" /\
    Order.totalAmount o' = 10%float.
Proof.
  intros reqs.
  destruct (orders_keep_their_core reqs Demo.site Sample.id1 Demo.o1 eq_refl)
    as (o' & Hsome & _ & Hemail & _ & Htotal & _).
  exists o'. split; [exact Hsome|]. split; [exact Hemail|exact Htotal].
Defined.

Lemma run_products reqs s :
  (forall env lib req, (env, lib, req) ∈ reqs -> admin_catalogue_request env req -> False) ->
  products (db (world (run reqs s))) = products (db (world s)).
Proof.
  revert s. induction reqs as [|[[env lib] req] reqs IH]; intros s Hnone; simpl.
  - reflexivity.
  - rewrite IH by (intros env' lib' req' Hin; apply (Hnone env' lib' req'); now right).
    destruct (handle_products env lib req s) as [Hsame | Hadmin]; [exact Hsame|].
    exfalso. apply (Hnone env lib req); [left|exact Hadmin].
Qed.

(** X11. The catalogue changes through [/addproduct] and [/removeproduct]
    requests of administrators only: a request that leaves the catalogue
    different is one of these two, made with a token whose role is "admin";
    and over any sequence of requests none of which is such a request, the
    catalogue stays as it was. *)
Theorem catalogue_changes_only_by_admin :
  (forall env lib req s,
      products (db (world (snd (handle env lib req s)))) <> products (db (world s)) ->
      admin_catalogue_request env req) /\
  (forall reqs s,
      (forall env lib req,
          (env, lib, req) ∈ reqs -> admin_catalogue_request env req -> False) ->
      products (db (world (run reqs s))) = products (db (world s))).
Proof.
  split; [|exact run_products].
  intros env lib req s Hchanged.
  destruct (handle_products env lib req s) as [Hsame | Hadmin]; [contradiction|exact Hadmin].
Qed.

(** A customer's attempts to add and to remove a product, an anonymous
    attempt, an order and a signup leave the two products where they were. *)
Lemma catalogue_changes_only_by_admin_witness :
  let reqs :=
    [(Sample.env, Demo.lib,
      AddProduct (Some "Bearer tok-alice") (Demo.product_body (Some (Num 9%float))));
     (Sample.env, Demo.lib, RemoveProduct (Some "Bearer tok-alice") 7000%float);
     (Sample.env, Demo.lib, RemoveProduct None 7001%float);
     (Sample.env, Demo.lib,
      OrderRoute (PlaceOrder (Some "Bearer tok-alice") Sample.cod_body))] in
  products (db (world (run reqs Demo.site))) = [Demo.pen; Demo.ink].
Proof.
  intros reqs.
  destruct catalogue_changes_only_by_admin as [_ Hrun].
  apply (Hrun reqs Demo.site).
  intros env lib req Hin (auth & user & Hcaller & Hrole & Hreq).
  subst reqs. repeat (apply elem_of_cons in Hin as [Hin|Hin]);
    try (now apply elem_of_nil in Hin);
    injection Hin as -> -> ->;
    destruct Hreq as [[body Hreq]|[id Hreq]]; try discriminate;
    injection Hreq as <-; try (intros; subst);
    vm_compute in Hcaller; try discriminate;
    injection Hcaller as <-; discriminate.
Defined.

Lemma run_users reqs s :
  exists added,
    users (run reqs s) = (users s ++ added)%list /\
    Forall (fun u => Account.role u = "user") added.
Proof.
  revert s. induction reqs as [|[[env lib] req] reqs IH]; intros s; simpl.
  - exists []. split; [now rewrite app_nil_r|constructor].
  - destruct (IH (snd (handle env lib req s))) as (added & -> & Hroles).
    destruct (handle_users env lib req s) as [-> | (body & _ & _ & ->)].
    + now exists added.
    + exists (signup_account lib body :: added).
      split; [now rewrite <- app_assoc|]. now constructor.
Qed.

(** X16. Accounts are never removed or altered by any route of the server,
    and every account that appears was made by [/signup] with the role
    "user": whatever requests are handled, the accounts afterwards are the
    accounts before followed by new accounts of role "user". So an account
    that is an administrator afterwards was one before. *)
Theorem accounts_only_grow_as_users reqs s :
  (exists added,
      users (run reqs s) = (users s ++ added)%list /\
      Forall (fun u => Account.role u = "user") added) /\
  (forall u, u ∈ users (run reqs s) -> is_admin u -> u ∈ users s).
Proof.
  destruct (run_users reqs s) as (added & Husers & Hroles).
  split; [now exists added|].
  intros u Hin Hadmin. rewrite Husers in Hin.
  apply elem_of_app in Hin as [Hin|Hin]; [exact Hin|].
  rewrite Forall_forall in Hroles. apply Hroles in Hin.
  unfold is_admin in Hadmin. congruence.
Qed.

(** ** The catalogue *)

Lemma new_Product_inr env init doc :
  new_Product env init = inr doc ->
  doc = Product.mk (init_id init) (default "" (init_name init)) (init_images init)
                   (default "" (init_category init)) (init_new_price init)
                   (init_old_price init) (Date_now env) true /\
  is_number (init_id init).
Proof.
  unfold new_Product, is_number.
  destruct (PrimFloat.is_nan (init_id init)); [discriminate|].
  destruct (negb (truthy_str (init_name init))); [discriminate|].
  destruct (negb (forallb _ _)); [discriminate|].
  destruct (negb (truthy_str (init_category init))); [discriminate|].
  destruct (PrimFloat.is_nan (init_new_price init)); [discriminate|].
  destruct (PrimFloat.is_nan (init_old_price init)); [discriminate|].
  now intros [= <-].
Qed.

Lemma next_product_id_spec (ps : list Product.t) :
  Forall (fun q => is_number (Product.id q)) ps ->
  ps <> [] ->
  exists top,
    top ∈ ps /\
    (forall q, q ∈ ps -> (Product.id q <=? Product.id top)%float = true) /\
    next_product_id ps = (Product.id top + 1)%float.
Proof.
  intros Hids Hne. unfold next_product_id.
  pose proof (sort_desc_head Product.id ps Hids) as Hhead.
  destruct (head (sort_desc Product.id ps)) as [top|]; [|contradiction].
  destruct Hhead as [Hin Hmax]. now exists top.
Qed.

(** X8. [/addproduct] either fails (400 or 500) and leaves the catalogue as
    it was, or appends exactly one product and returns it. The new product's
    id is not the id of any product already stored; it is 7000 when the
    catalogue is empty, and otherwise one more than the greatest stored id.
    The stored orders are not touched. *)
Theorem addproduct_allocates_next_id env lib user body w :
  let ps := products (db w) in
  let res := addproduct env lib user body w in
  orders (db (snd res)) = orders (db w) /\
  ((exists r, fst res = Normal (Json r) /\
              (status_code r = 400 \/ status_code r = 500) /\
              products (db (snd res)) = ps)
   \/
   (exists p, fst res = Normal (ProductReply p) /\
              products (db (snd res)) = (ps ++ [p])%list /\
              existsb (has_id (Product.id p)) ps = false /\
              (ps = [] -> Product.id p = 7000%float) /\
              (Forall (fun q => is_number (Product.id q)) ps -> ps <> [] ->
               exists top,
                 top ∈ ps /\
                 (forall q, q ∈ ps -> (Product.id q <=? Product.id top)%float = true) /\
                 Product.id p = (Product.id top + 1)%float))).
Proof.
  intros ps res. subst ps res. rewrite addproduct_paths.
  destruct (product_fields_missing body).
  { split; [reflexivity|]. left. eexists. split; [reflexivity|]. split; [now left|reflexivity]. }
  destruct (new_Product env _) as [e|doc] eqn:Hnew.
  { split; [reflexivity|]. left. eexists. split; [reflexivity|]. split; [now right|reflexivity]. }
  destruct (existsb _ _) eqn:Hfree.
  { split; [reflexivity|]. left. eexists. split; [reflexivity|]. split; [now right|reflexivity]. }
  split; [reflexivity|]. right. exists doc.
  apply new_Product_inr in Hnew as [-> _]. simpl in *.
  split; [reflexivity|]. split; [reflexivity|]. split; [exact Hfree|]. split.
  - now intros ->.
  - apply next_product_id_spec.
Qed.

(** With the products 7000 and 7001 in the catalogue the next one is 7002. *)
Lemma addproduct_allocates_next_id_witness :
  let w := world Demo.site in
  exists p,
    fst (addproduct Sample.env Demo.lib Sample.bob (Demo.product_body (Some (Str "999"))) w)
    = Normal (ProductReply p) /\
    Product.id p = 7002%float /\
    Product.new_price p = 999%float.
Proof.
  intros w.
  destruct (addproduct_allocates_next_id Sample.env Demo.lib Sample.bob
              (Demo.product_body (Some (Str "999"))) w)
    as [_ [(r & Hres & _) | (p & Hres & _ & _ & _ & Hnext)]].
  - vm_compute in Hres. discriminate.
  - exists p. split; [exact Hres|].
    vm_compute in Hres. injection Hres as <-. split; reflexivity.
Defined.

Lemma remove_first_app_last {A} (p : A -> bool) (l : list A) (x : A) :
  existsb p l = false -> p x = true -> remove_first p (l ++ [x]) = l.
Proof.
  induction l as [|y l IH]; simpl; intros Hl Hx.
  - now rewrite Hx.
  - apply orb_false_elim in Hl as [Hy Hl]. rewrite Hy. now rewrite IH.
Qed.

Lemma has_id_self (p : Product.t) : is_number (Product.id p) -> has_id (Product.id p) p = true.
Proof.
  unfold is_number, PrimFloat.is_nan, has_id. now destruct (Product.id p =? Product.id p)%float.
Qed.

(** X9. Product ids are reused. When a product has just been added and is
    removed again by its id, the catalogue is back to what it was, and the
    next product to be added gets the very id the removed one had. *)
Theorem addproduct_reuses_removed_id env lib user body w p :
  fst (addproduct env lib user body w) = Normal (ProductReply p) ->
  let w1 := snd (addproduct env lib user body w) in
  forall env' user',
    let w2 := snd (removeproduct env' user' (Product.id p) w1) in
    products (db w2) = products (db w) /\
    forall env'' lib'' user'' body'' p',
      fst (addproduct env'' lib'' user'' body'' w2) = Normal (ProductReply p') ->
      Product.id p' = Product.id p.
Proof.
  rewrite addproduct_paths.
  destruct (product_fields_missing body); [discriminate|].
  destruct (new_Product env _) as [e|doc] eqn:Hnew; [discriminate|].
  destruct (existsb _ _) eqn:Hfree; [discriminate|].
  intros [= <-] w1 env' user' w2. subst w1 w2.
  apply new_Product_inr in Hnew as [Hdoc Hnum].
  assert (Hid : Product.id doc = next_product_id (products (db w))) by (now subst doc).
  assert (Hback : remove_first (has_id (Product.id doc)) (products (db w) ++ [doc])
                  = products (db w)).
  { apply remove_first_app_last; [exact Hfree|]. apply has_id_self. now rewrite Hid. }
  rewrite removeproduct_paths. cbn [snd]. simpl. rewrite Hback. split; [reflexivity|].
  intros env'' lib'' user'' body'' p'. rewrite addproduct_paths. simpl.
  destruct (product_fields_missing body''); [discriminate|].
  destruct (new_Product env'' _) as [e|doc'] eqn:Hnew'; [discriminate|].
  destruct (existsb (has_id (Product.id doc')) _); [discriminate|].
  cbn [fst]. intros [= <-]. apply new_Product_inr in Hnew' as [-> _]. simpl. now rewrite Hid.
Qed.

(** The product added as 7002 is removed; the next product is 7002 again. *)
Lemma addproduct_reuses_removed_id_witness :
  let w := world Demo.site in
  let w1 := snd (addproduct Sample.env Demo.lib Sample.bob
                   (Demo.product_body (Some (Num 9%float))) w) in
  let w2 := snd (removeproduct Sample.env Sample.bob 7002%float w1) in
  products (db w2) = [Demo.pen; Demo.ink] /\
  exists p',
    fst (addproduct Sample.env Demo.lib Sample.bob (Demo.product_body (Some (Num 4%float))) w2)
    = Normal (ProductReply p') /\
    Product.id p' = 7002%float.
Proof.
  intros w w1 w2.
  destruct (addproduct_reuses_removed_id Sample.env Demo.lib Sample.bob
              (Demo.product_body (Some (Num 9%float))) w
              (Product.mk 7002%float "cap" ["cap.png"] "office" 9%float 3%float
                          1700000000000%float true)
              eq_refl Sample.env Sample.bob) as [Hback Hnext].
  split; [exact Hback|].
  eexists. split; [reflexivity|].
  now apply (Hnext Sample.env Demo.lib Sample.bob (Demo.product_body (Some (Num 4%float)))).
Defined.

Lemma remove_first_split {A} (p : A -> bool) (l : list A) :
  if existsb p l
  then exists l1 x l2,
      l = (l1 ++ x :: l2)%list /\ existsb p l1 = false /\ p x = true /\
      remove_first p l = (l1 ++ l2)%list
  else remove_first p l = l.
Proof.
  induction l as [|y l IH]; simpl; [reflexivity|].
  destruct (p y) eqn:Hy; simpl.
  - now exists [], y, l.
  - destruct (existsb p l).
    + destruct IH as (l1 & x & l2 & -> & Hl1 & Hx & ->).
      exists (y :: l1), x, l2. simpl. now rewrite Hy.
    + now rewrite IH.
Qed.

(** X10. [/removeproduct], called by an administrator with a Number id,
    always answers [success: true]. When no product has that id nothing
    changes; otherwise exactly the first product with that id is taken out,
    all others staying in place. Orders and accounts are not touched. *)
Theorem removeproduct_removes_first env lib auth user id s :
  caller env auth = Some user ->
  role user = "admin" ->
  let ps := products (db (world s)) in
  let res := handle env lib (RemoveProduct auth id) s in
  fst res = Normal (Json (res_json [("success", BBool true)])) /\
  orders (db (world (snd res))) = orders (db (world s)) /\
  users (snd res) = users s /\
  if existsb (has_id id) ps
  then exists l1 p l2,
      ps = (l1 ++ p :: l2)%list /\ existsb (has_id id) l1 = false /\ has_id id p = true /\
      products (db (world (snd res))) = (l1 ++ l2)%list
  else products (db (world (snd res))) = ps.
Proof.
  intros Hcaller Hrole ps res. subst ps res. destruct s as [w us]. simpl.
  unfold in_world. simpl.
  rewrite (authenticateToken_for_caller _ _ _ user) by exact Hcaller.
  unfold requireAdmin_for. rewrite Hrole. simpl.
  repeat split. apply remove_first_split.
Qed.

(** Removing 7000 leaves 7001; removing 7005, which is not there, also
    answers success. *)
Lemma removeproduct_removes_first_witness :
  products (db (world (snd (handle Sample.env Demo.lib
                              (RemoveProduct (Some "Bearer tok-bob") 7000%float) Demo.site))))
  = [Demo.ink] /\
  fst (handle Sample.env Demo.lib (RemoveProduct (Some "Bearer tok-bob") 7005%float) Demo.site)
  = Normal (Json (res_json [("success", BBool true)])).
Proof.
  split; [reflexivity|].
  now apply (removeproduct_removes_first Sample.env Demo.lib (Some "Bearer tok-bob")
               Sample.bob 7005%float Demo.site).
Defined.

(** X12. [/allproducts] needs no token. It answers with every product of
    the catalogue, each once, the latest [date] first (ordered throughout
    when the dates are Numbers), and changes nothing. *)
Theorem allproducts_lists_catalogue env lib s :
  let res := handle env lib AllProducts s in
  exists l,
    fst res = Normal (ProductsReply l) /\
    l ≡ₚ products (db (world s)) /\
    Sorted (descending Product.date) l /\
    (Forall (fun p => is_number (Product.date p)) (products (db (world s))) ->
     StronglySorted (at_most Product.date) l) /\
    snd res = s.
Proof.
  intros res. subst res. destruct s as [w us]. unfold handle, in_world. cbn [world users].
  rewrite allproducts_paths. cbn [fst snd]. eexists. split; [reflexivity|].
  split; [apply sort_desc_perm|]. split; [apply sort_desc_sorted|].
  split; [apply sort_desc_strongly|reflexivity].
Qed.

(** X13. A price of zero. [/addproduct] takes a [new_price] that is the
    Number 0 for a missing field and answers 400, while the string "0",
    which [Number] turns into 0, passes: whenever a product would be added
    with the price 1, the same request with the Number 0 is refused and the
    same request with the string "0" adds the product, under the same id,
    with the price 0. *)
Theorem addproduct_zero_price env lib user body w p :
  StringToNumber lib "0" = 0%float ->
  fst (addproduct env lib user (with_new_price body (Some (Num 1%float))) w)
  = Normal (ProductReply p) ->
  addproduct env lib user (with_new_price body (Some (Num 0%float))) w
  = (Normal (Json (fail_json 400 "All product fields are required")), w) /\
  exists p0,
    addproduct env lib user (with_new_price body (Some (Str "0"))) w
    = (Normal (ProductReply p0), with_products (products (db w) ++ [p0]) w) /\
    Product.new_price p0 = 0%float /\
    Product.id p0 = Product.id p /\
    Product.name p0 = Product.name p /\
    Product.old_price p0 = Product.old_price p.
Proof.
  intros Hzero. rewrite !addproduct_paths.
  unfold product_fields_missing, with_new_price. cbn [ProductBody.name ProductBody.images
    ProductBody.category ProductBody.new_price ProductBody.old_price price_missing].
  destruct (negb (truthy_str (ProductBody.name body))) eqn:Hname; [discriminate|].
  destruct (images_missing (ProductBody.images body)) eqn:Himages; [discriminate|].
  destruct (negb (truthy_str (ProductBody.category body))) eqn:Hcat; [discriminate|].
  change (PrimFloat.is_zero 1 || PrimFloat.is_nan 1) with false.
  change (PrimFloat.is_zero 0 || PrimFloat.is_nan 0) with true.
  change (String.eqb "0" "") with false.
  cbn [orb].
  destruct (price_missing (ProductBody.old_price body)) eqn:Hold; [discriminate|].
  unfold new_Product, addproduct_init.
  cbn [init_id init_name init_images init_category init_new_price init_old_price
       ProductBody.name ProductBody.images ProductBody.category ProductBody.new_price
       ProductBody.old_price to_number].
  rewrite Hzero.
  destruct (PrimFloat.is_nan (next_product_id (products (db w)))); [discriminate|].
  rewrite Hname, Hcat.
  destruct (negb (forallb _ _)); [discriminate|].
  change (PrimFloat.is_nan 1) with false. change (PrimFloat.is_nan 0) with false.
  cbn iota.
  destruct (PrimFloat.is_nan (to_number lib (ProductBody.old_price body))); [discriminate|].
  cbn [Product.id].
  destruct (existsb _ _); [discriminate|].
  cbn [fst]. intros [= <-]. split; [reflexivity|].
  eexists. split; [reflexivity|]. now repeat split.
Qed.

(** A cap is refused at the Number 0 and added at the string "0". *)
Lemma addproduct_zero_price_witness :
  let w := world Demo.site in
  addproduct Sample.env Demo.lib Sample.bob (Demo.product_body (Some (Num 0%float))) w
  = (Normal (Json (fail_json 400 "All product fields are required")), w) /\
  exists p0,
    fst (addproduct Sample.env Demo.lib Sample.bob (Demo.product_body (Some (Str "0"))) w)
    = Normal (ProductReply p0) /\
    Product.new_price p0 = 0%float.
Proof.
  intros w.
  destruct (addproduct_zero_price Sample.env Demo.lib Sample.bob (Demo.product_body None) w
              (Product.mk 7002%float "cap" ["cap.png"] "office" 1%float 3%float
                          1700000000000%float true) eq_refl eq_refl)
    as (Hrefused & p0 & Hadded & Hprice & _).
  split; [exact Hrefused|].
  exists p0. split; [|exact Hprice].
  change (Demo.product_body (Some (Str "0")))
    with (with_new_price (Demo.product_body None) (Some (Str "0"))).
  now rewrite Hadded.
Defined.

(** ** Accounts *)

Lemma find_app_last {A} (p : A -> bool) (l : list A) (x : A) :
  List.find p l = None -> p x = true -> List.find p (l ++ [x]) = Some x.
Proof.
  induction l as [|y l IH]; simpl; intros Hl Hx; [now rewrite Hx|].
  destruct (p y); [discriminate|now apply IH].
Qed.

Lemma find_none_emails (email : string) (us : list Account.t) :
  List.find (has_email email) us = None -> email ∉ map Account.email us.
Proof.
  induction us as [|u us IH]; simpl; intros Hfind Hin; [now apply elem_of_nil in Hin|].
  unfold has_email in Hfind at 1. destruct (String.eqb (Account.email u) email) eqn:Heq;
    [discriminate|].
  apply String.eqb_neq in Heq.
  apply elem_of_cons in Hin as [->|Hin]; [contradiction|now apply IH].
Qed.

(** X14. [/signup] either fails (400 or 500) and leaves the accounts as they
    were, or appends exactly one account: it has the username and email that
    were sent, the bcrypt hash of the password, and the role "user"; no
    account had that email before, so emails that were unique stay unique.
    Nothing else in the body, a [role] field included, has any influence. *)
Theorem signup_adds_a_user lib body s :
  let res := signup lib body s in
  ((exists r, fst res = Normal r /\
              (status_code r = 400 \/ status_code r = 500) /\
              users (snd res) = users s)
   \/
   (fst res = Normal signup_ok /\
    users (snd res) =
      (users s ++ [Account.mk (default "" (SignupBody.username body))
                              (default "" (SignupBody.email body))
                              (bcrypt_hash lib (default "" (SignupBody.password body)))
                              "user"])%list /\
    truthy_str (SignupBody.username body) = true /\
    truthy_str (SignupBody.email body) = true /\
    truthy_str (SignupBody.password body) = true /\
    (default "" (SignupBody.email body) ∉ map Account.email (users s)) /\
    world (snd res) = world s)) /\
  (NoDup (map Account.email (users s)) -> NoDup (map Account.email (users (snd res)))) /\
  (forall rest',
      signup lib (SignupBody.mk (SignupBody.username body) (SignupBody.email body)
                                (SignupBody.password body) rest') s = res).
Proof.
  intros res. subst res.
  assert (Hrest : forall rest',
             signup lib (SignupBody.mk (SignupBody.username body) (SignupBody.email body)
                                       (SignupBody.password body) rest') s
             = signup lib body s)
    by (intros rest'; now rewrite !signup_paths).
  match goal with |- ?P /\ ?Q /\ _ => cut (P /\ Q); [intros [? ?]; auto|] end. clear Hrest.
  rewrite signup_paths. unfold signup_fields_missing.
  destruct (truthy_str (SignupBody.username body)) eqn:Hu; cbn [negb orb].
  2: { split; [left; eexists; split; [reflexivity|]; split; [now left|reflexivity]|easy]. }
  destruct (truthy_str (SignupBody.email body)) eqn:He; cbn [negb orb].
  2: { split; [left; eexists; split; [reflexivity|]; split; [now left|reflexivity]|easy]. }
  destruct (truthy_str (SignupBody.password body)) eqn:Hp; cbn [negb orb].
  2: { split; [left; eexists; split; [reflexivity|]; split; [now left|reflexivity]|easy]. }
  destruct (List.find _ (users s)) as [u|] eqn:Hfind.
  { split; [left; eexists; split; [reflexivity|]; split; [now left|reflexivity]|easy]. }
  destruct (String.eqb (bcrypt_hash lib _) "").
  { split; [left; eexists; split; [reflexivity|]; split; [now right|reflexivity]|easy]. }
  apply find_none_emails in Hfind.
  split; [right; now repeat split|].
  intros Hnodup. cbn [snd users]. rewrite map_app. simpl.
  apply NoDup_app. split; [exact Hnodup|]. split; [|apply NoDup_singleton].
  intros e Hin Hin'. apply list_elem_of_singleton in Hin'. now subst e.
Qed.

(** Dave signs up and asks to be an administrator; his account is a user's. *)
Lemma signup_adds_a_user_witness :
  let body := SignupBody.mk (Some "dave") (Some "dave@example.com") (Some "pw")
                            [("role", JStr "admin")] in
  users (snd (signup Demo.lib body Demo.site))
  = [Demo.carol; Account.mk "dave" "dave@example.com" "$2a$10$pw" "user"].
Proof.
  intros body.
  destruct (signup_adds_a_user Demo.lib body Demo.site)
    as [[(r & Hres & _) | (_ & Husers & _)] _].
  - vm_compute in Hres. injection Hres as <-. reflexivity.
  - exact Husers.
Defined.

(** X15. After a successful [/signup], a [/login] with the same email and
    password succeeds whenever bcrypt accepts the password against the hash
    made at signup: it answers with the role "user" and a token signed for
    the username, the email and that role, and it changes nothing. *)
Theorem signup_then_login lib lib' body rest' s :
  fst (signup lib body s) = Normal signup_ok ->
  bcrypt_compare lib' (default "" (SignupBody.password body))
    (bcrypt_hash lib (default "" (SignupBody.password body))) = true ->
  let s1 := snd (signup lib body s) in
  login lib' (LoginBody.mk (SignupBody.email body) (SignupBody.password body) rest') s1
  = (Normal (res_json
               [("success", BBool true);
                ("token", BStr (jwt_sign lib' (mkUser (default "" (SignupBody.username body))
                                                      (default "" (SignupBody.email body))
                                                      "user")));
                ("role", BStr "user")]),
     s1).
Proof.
  intros Hok Hbcrypt s1. subst s1. revert Hok. rewrite signup_paths, login_paths.
  unfold signup_fields_missing.
  destruct (truthy_str (SignupBody.username body)); [|discriminate].
  destruct (truthy_str (SignupBody.email body)) eqn:He; [|discriminate].
  destruct (truthy_str (SignupBody.password body)) eqn:Hp; [|discriminate].
  cbn [negb orb].
  destruct (List.find _ (users s)) as [u|] eqn:Hfind; [discriminate|].
  destruct (String.eqb (bcrypt_hash lib _) ""); [discriminate|].
  intros _. cbn [snd users LoginBody.email LoginBody.password]. rewrite He, Hp. cbn [negb orb].
  rewrite (find_app_last _ _ _ Hfind).
  - cbn [signup_account Account.password]. now rewrite Hbcrypt.
  - unfold has_email, signup_account. cbn [Account.email]. apply String.eqb_refl.
Qed.

(** Dave logs in after signing up, and the token he gets is no key to the
    admin routes. *)
Lemma signup_then_login_witness :
  let body := SignupBody.mk (Some "dave") (Some "dave@example.com") (Some "pw")
                            [("role", JStr "admin")] in
  let s1 := snd (signup Demo.lib body Demo.site) in
  fst (login Demo.lib (LoginBody.mk (Some "dave@example.com") (Some "pw") []) s1)
  = Normal (res_json [("success", BBool true); ("token", BStr "tok-dave");
                      ("role", BStr "user")]) /\
  requireAdmin (mkUser "dave" "dave@example.com" "user")
    (mret (res_json [("success", BBool true)])) (world s1)
  = (Normal (fail_json 403 "Admin access required"), world s1).
Proof.
  intros body s1. split; [|reflexivity].
  exact (f_equal fst (signup_then_login Demo.lib Demo.lib body [] Demo.site eq_refl eq_refl)).
Defined.

(** Dave's signup does not make an administrator, and Carol stays one. *)
Lemma accounts_only_grow_as_users_witness :
  let reqs :=
    [(Sample.env, Demo.lib,
      Signup (SignupBody.mk (Some "dave") (Some "dave@example.com") (Some "pw")
                [("role", JStr "admin")]));
     (Sample.env, Demo.lib, Login (LoginBody.mk (Some "dave@example.com") (Some "pw") []))] in
  Demo.carol ∈ users (run reqs Demo.site) /\
  forall u, u ∈ users (run reqs Demo.site) -> is_admin u -> u = Demo.carol.
Proof.
  intros reqs.
  destruct (accounts_only_grow_as_users reqs Demo.site) as [(added & Husers & _) Hadmins].
  split.
  - rewrite Husers. apply elem_of_app. left. now left.
  - intros u Hin Hadmin. apply (Hadmins u Hin) in Hadmin.
    now apply list_elem_of_singleton in Hadmin.
Defined.

(** ** Every request is answered *)

Lemma route_answers env op w : exists r, fst (route env op w) = Normal r.
Proof.
  destruct op as [auth body|auth body|auth body|auth id body]; simpl;
    apply authenticateToken_answers; intros user w'.
  - rewrite placeorder_paths. unfold placeorder_failed.
    repeat match goal with
           | |- context [if ?b then _ else _] => destruct b
           | |- context [match ?x with _ => _ end] => destruct x
           end; simpl; eauto.
  - rewrite create_cashfree_order_paths. unfold cashfree_failed.
    repeat match goal with
           | |- context [match ?x with _ => _ end] => destruct x
           end; simpl; eauto.
  - rewrite verify_payment_paths. unfold verify_failed.
    repeat match goal with
           | |- context [match ?x with _ => _ end] => destruct x
           end; simpl; eauto.
  - unfold requireAdmin. destruct (negb _); [simpl; eauto|].
    rewrite admin_update_order_paths. destruct (castObjectId id); simpl; eauto.
Qed.

Lemma authenticateToken_for_answers {R} (json : Response -> R) env auth
    (next : User -> Eff R) w :
  (forall user, exists r, fst (next user w) = Normal r) ->
  exists r, fst (authenticateToken_for json env auth next w) = Normal r.
Proof.
  intros Hnext. destruct (caller env auth) as [user|] eqn:Hcaller.
  - rewrite (authenticateToken_for_caller _ _ _ user) by exact Hcaller. apply Hnext.
  - destruct (authenticateToken_for_refused json env auth next w Hcaller) as (r & -> & _).
    eauto.
Qed.

Lemma in_world_fst {A} (m : Eff A) (s : Site) : fst (in_world m s) = fst (m (world s)).
Proof. unfold in_world. now destruct (m (world s)). Qed.

(** X17. No exception escapes any route of the server: every request, to
    the order routes, the listings, the catalogue routes, [/signup] or
    [/login], whatever its token and body and whatever the database holds,
    is answered. *)
Theorem handle_always_answers env lib req s :
  exists r, fst (handle env lib req s) = Normal r.
Proof.
  destruct req as [op|auth|auth|auth body|auth id| |body|body]; cbn [handle].
  - rewrite in_world_fst. unfold mbind, mret, Eff_bind, Eff_ret.
    destruct (route_answers env op (world s)) as [r Hr].
    destruct (route env op (world s)) as [c w']. simpl in Hr. subst c. simpl. eauto.
  - rewrite in_world_fst. apply authenticateToken_for_answers. intros user.
    unfold list_orders, try_catch. eff_unfold. rewrite Order_find_sorted_paths. simpl. eauto.
  - rewrite in_world_fst. apply authenticateToken_for_answers. intros user.
    unfold requireAdmin_for. destruct (negb _); [simpl; eauto|].
    unfold admin_list_orders, try_catch. eff_unfold. rewrite Order_find_sorted_paths.
    simpl. eauto.
  - rewrite in_world_fst. apply authenticateToken_for_answers. intros user.
    unfold requireAdmin_for. destruct (negb _); [simpl; eauto|].
    rewrite addproduct_paths. unfold addproduct_failed.
    destruct (product_fields_missing body); [simpl; eauto|].
    destruct (new_Product env _); [simpl; eauto|].
    destruct (existsb _ _); simpl; eauto.
  - rewrite in_world_fst. apply authenticateToken_for_answers. intros user.
    unfold requireAdmin_for. destruct (negb _); simpl; eauto.
  - rewrite in_world_fst, allproducts_paths. simpl. eauto.
  - unfold mbind, mret, SEff_bind, SEff_ret. rewrite signup_paths.
    unfold account_failed.
    destruct (signup_fields_missing body); [simpl; eauto|].
    destruct (List.find _ _); [simpl; eauto|].
    destruct (String.eqb _ _); simpl; eauto.
  - unfold mbind, mret, SEff_bind, SEff_ret. rewrite login_paths. simpl. eauto.
Qed.
